(** * NasaDemo backend: the EONET client and the event normalizer

    A shallow embedding of [backend/nasa/client.py] (the retrying HTTP
    client) and [backend/nasa/normalizer.py] (the payload normalizer),
    followed by the properties of the two components.

    Conventions.
    - A parsed JSON document is a [json] value; a Python [dict] with string
      keys is a [gmap string json].
    - A Python [float] is modelled by the rational number it denotes
      (rounding and the IEEE special values are not modelled).
    - A Python exception is a value of [exn]; code that may raise returns a
      [result].
    - The client runs in a state monad over the chronological trace of its
      effects (the calls to [session.get] and to [time.sleep]). *)

From Stdlib Require Import ZArith QArith String Ascii List.
From stdpp Require Import base option list strings gmap pretty.
Import ListNotations.

Set Warnings "-register-all".

Local Open Scope string_scope.
Local Open Scope list_scope.
Local Open Scope Z_scope.

(** ** Python values and builtins *)

(** What [json.loads] / [Response.json()] can produce. *)
Inductive json : Type :=
| JNull
| JBool (b : bool)
| JInt (n : Z)
| JFloat (q : Q)
| JStr (s : string)
| JList (l : list json)
| JDict (d : gmap string json).

(** Python truthiness ([bool(v)], as used by [not v], [v or w] and
    [x if v else y]). *)
Definition truthy (v : json) : bool :=
  match v with
  | JNull => false
  | JBool b => b
  | JInt n => negb (n =? 0)%Z
  | JFloat q => negb (Qnum q =? 0)%Z
  | JStr s => negb (bool_decide (s = ""))
  | JList l => negb (bool_decide (l = []))
  | JDict d => negb (bool_decide (d = ∅))
  end.

(** [v or w] *)
Definition py_or (v w : json) : json := if truthy v then v else w.

(** An HTTP response as the client observes it: the status line, and the
    outcome of [Response.json()] ([None] when the body is not valid JSON). *)
Record Response := {
  status_code : Z;
  reason : string;
  resp_url : string;
  body_json : option json;
}.

(** Exceptions.  A class stands for itself and its subclasses
    ([requests.ConnectTimeout] and [requests.ReadTimeout] are [Timeout],
    [requests.SSLError] is [ConnectionError], ...). [RequestException]
    stands for the remaining [requests] exceptions ([TooManyRedirects],
    [InvalidURL], ...), none of which derives from the three classes above
    it. The second argument of [EONETClientError] is its [__cause__]
    ([raise ... from e]). *)
Inductive exn : Type :=
| Timeout
| ConnectionError
| HTTPError (msg : string) (response : option Response)
| RequestException (what : string)
| JSONDecodeError
| AttributeError (msg : string)
| TypeError (msg : string)
| ValueError (msg : string)
| EONETClientError (msg : string) (cause : option exn).

Inductive result (A : Type) : Type :=
| Ok (a : A)
| Raise (e : exn).
Arguments Ok {A} a.
Arguments Raise {A} e.

#[global] Instance result_ret : MRet result := fun _ a => Ok a.
#[global] Instance result_bind : MBind result := fun _ _ f m =>
  match m with
  | Ok a => f a
  | Raise e => Raise e
  end.
#[global] Instance result_fmap : FMap result := fun _ _ f m =>
  match m with
  | Ok a => Ok (f a)
  | Raise e => Raise e
  end.

Definition is_ok {A} (r : result A) : bool :=
  match r with
  | Ok _ => true
  | Raise _ => false
  end.

(** The name Python prints for the type of a value, as in the message of
    an [AttributeError]. *)
Definition type_name (v : json) : string :=
  match v with
  | JNull => "NoneType"
  | JBool _ => "bool"
  | JInt _ => "int"
  | JFloat _ => "float"
  | JStr _ => "str"
  | JList _ => "list"
  | JDict _ => "dict"
  end.

Definition no_attribute (v : json) (attr : string) : exn :=
  AttributeError ("'" +:+ type_name v +:+ "' object has no attribute '" +:+ attr +:+ "'").

(** [o.get(key, default)]: only a [dict] has the method. *)
Definition py_get (o : json) (key : string) (dflt : json) : result json :=
  match o with
  | JDict d => Ok (default dflt (d !! key))
  | _ => Raise (no_attribute o "get")
  end.

(** [for x in v]: a list yields its elements, a string its characters
    (one per byte here), a dict its keys (in the order of the map, which
    does not keep the insertion order); the other values are not
    iterable. The normalizer calls [.get] on each item, so it fails on the
    first character or key whichever it is. *)
Fixpoint chars (s : string) : list json :=
  match s with
  | EmptyString => []
  | String a s' => JStr (String a EmptyString) :: chars s'
  end.

Definition py_iter (v : json) : result (list json) :=
  match v with
  | JList l => Ok l
  | JStr s => Ok (chars s)
  | JDict d => Ok (JStr <$> (map_to_list d).*1)
  | _ => Raise (TypeError ("'" +:+ type_name v +:+ "' object is not iterable"))
  end.

(** [s.replace(old, new)] for a one-character [old]. *)
Fixpoint replace_char (old : ascii) (new : string) (s : string) : string :=
  match s with
  | EmptyString => EmptyString
  | String a s' =>
      if Ascii.eqb a old then new +:+ replace_char old new s'
      else String a (replace_char old new s')
  end.

(** [v.replace("Z", "+00:00")]: only a [str] has the method. *)
Definition py_replace_Z (v : json) : result string :=
  match v with
  | JStr s => Ok (replace_char "Z" "+00:00" s)
  | _ => Raise (no_attribute v "replace")
  end.

(** [s.lstrip("/")] and [s.rstrip("/")]. *)
Fixpoint lstrip_slash (s : string) : string :=
  match s with
  | String a s' => if Ascii.eqb a "/" then lstrip_slash s' else s
  | EmptyString => EmptyString
  end.

Fixpoint rstrip_slash (s : string) : string :=
  match s with
  | EmptyString => EmptyString
  | String a s' =>
      let r := rstrip_slash s' in
      if Ascii.eqb a "/" && bool_decide (r = "") then "" else String a r
  end.

(** [str(n)] for an [int]. *)
Definition str_int (n : Z) : string := pretty n.

(** [range(lo, hi)] *)
Definition py_range (lo hi : Z) : list Z := seqZ lo (hi - lo).

(** ** backend/config.py *)

Record Settings := {
  EONET_BASE_URL : string;
  NASA_API_KEY : option string;
  HTTP_TIMEOUT_SECONDS : Z;
  HTTP_RETRIES : Z;
  HTTP_BACKOFF_SECONDS : Q;
}.

(** ** backend/nasa/client.py *)

Module Client.

(** One [session.get(url, params=..., timeout=...)] call. *)
Record Request := {
  req_url : string;
  req_params : gmap string json;
  req_timeout : Z;
}.

(** What a call to [session.get] does: it returns a response or raises. *)
Variant outcome :=
| Responded (r : Response)
| Failed (e : exn).

(** The injected session, seen from the client: the outcome of the
    [n]-th GET (counting from 0) for a given request. *)
Definition Session := nat -> Request -> outcome.

(** The effects, in the order they happen: a call to [session.get]
    (whether it returns or raises) and a completed [time.sleep]. *)
Variant event :=
| EvGet (r : Request)
| EvSleep (seconds : Q).

Definition world := list event.

Definition is_get (ev : event) : bool :=
  match ev with
  | EvGet _ => true
  | EvSleep _ => false
  end.

(** Number of GET requests sent so far. *)
Definition gets (w : world) : nat := length (List.filter is_get w).

(** Durations slept so far. *)
Definition sleeps (w : world) : list Q :=
  omap (fun ev => match ev with EvSleep d => Some d | EvGet _ => None end) w.

(** State and exceptions. *)
Definition M (A : Type) : Type := world -> result A * world.

#[global] Instance M_ret : MRet M := fun _ a w => (Ok a, w).
#[global] Instance M_bind : MBind M := fun _ _ f m w =>
  match m w with
  | (Ok a, w') => f a w'
  | (Raise e, w') => (Raise e, w')
  end.

Definition raise {A} (e : exn) : M A := fun w => (Raise e, w).

(** [try: body  except <classes> as e: handler e]; an exception outside
    the listed classes propagates, and so does one raised by the handler. *)
Definition try_except {A} (body : M A) (classes : exn -> bool) (handler : exn -> M A) : M A :=
  fun w =>
    match body w with
    | (Ok a, w') => (Ok a, w')
    | (Raise e, w') => if classes e then handler e w' else (Raise e, w')
    end.

Record EONETClient := {
  base_url : string;
  timeout : Z;
  retries : Z;
  backoff : Q;
  session : Session;
}.

(** [EONETClient.__init__]. [new_session] is what [requests.Session()]
    creates. *)
Definition __init__ (settings : Settings) (new_session : Session)
    (base_url : option string) (timeout_seconds : option Z) (retries : option Z)
    (backoff_seconds : option Q) (session : option Session) : EONETClient :=
  {| base_url :=
       rstrip_slash
         match base_url with
         | Some u => if bool_decide (u = "") then EONET_BASE_URL settings else u
         | None => EONET_BASE_URL settings
         end;
     timeout :=
       match timeout_seconds with
       | Some t => if (t =? 0)%Z then HTTP_TIMEOUT_SECONDS settings else t
       | None => HTTP_TIMEOUT_SECONDS settings
       end;
     retries := default (HTTP_RETRIES settings) retries;
     backoff := default (HTTP_BACKOFF_SECONDS settings) backoff_seconds;
     session := default new_session session |}.

(** [self.session.get(url, params=params, timeout=self.timeout)] *)
Definition session_get (c : EONETClient) (req : Request) : M Response :=
  fun w =>
    match session c (gets w) req with
    | Responded r => (Ok r, w ++ [EvGet req])
    | Failed e => (Raise e, w ++ [EvGet req])
    end.

(** [resp.raise_for_status()] of [requests]. *)
Definition raise_for_status (resp : Response) : M unit :=
  let status := status_code resp in
  if (400 <=? status)%Z && (status <? 500)%Z then
    raise (HTTPError (str_int status +:+ " Client Error: " +:+ reason resp
                        +:+ " for url: " +:+ resp_url resp) (Some resp))
  else if (500 <=? status)%Z && (status <? 600)%Z then
    raise (HTTPError (str_int status +:+ " Server Error: " +:+ reason resp
                        +:+ " for url: " +:+ resp_url resp) (Some resp))
  else mret tt.

(** [resp.json()] *)
Definition resp_json (resp : Response) : M json :=
  match body_json resp with
  | Some j => mret j
  | None => raise JSONDecodeError
  end.

(** [time.sleep(seconds)]: a negative duration is rejected. *)
Definition time_sleep (seconds : Q) : M unit :=
  fun w =>
    if Qle_bool 0 seconds then (Ok tt, w ++ [EvSleep seconds])
    else (Raise (ValueError "sleep length must be non-negative"), w).

(** The classes of the [except] clause of [_get]. *)
Definition caught (e : exn) : bool :=
  match e with
  | Timeout | ConnectionError | HTTPError _ _ => true
  | _ => false
  end.

(** How one iteration of the [for] loop ends when it does not raise. *)
Variant loop_ctl :=
| Return (j : json)
| Continue (last_err : exn).

(** The [try] block of one attempt. *)
Definition try_block (c : EONETClient) (req : Request) : M loop_ctl :=
  resp ← session_get c req;
  if (500 <=? status_code resp)%Z && (status_code resp <? 600)%Z then
    raise (HTTPError ("Server error " +:+ str_int (status_code resp)) (Some resp))
  else
    _ ← raise_for_status resp;
    j ← resp_json resp;
    mret (Return j).

(** The test at the head of the [except] block: the status of [e] when
    [e] is an [HTTPError] that carries a response with a 4xx status other
    than 429. *)
Definition non_retryable_status (e : exn) : option Z :=
  match e with
  | HTTPError _ (Some response) =>
      let status := status_code response in
      if (400 <=? status)%Z && (status <? 500)%Z && negb (status =? 429)%Z
      then Some status else None
  | _ => None
  end.

(** The [except] block of one attempt. *)
Definition except_block (c : EONETClient) (url : string) (attempt : Z) (e : exn) : M loop_ctl :=
  let last_err := e in
  match non_retryable_status e with
  | Some status =>
      raise (EONETClientError
               ("EONET request failed (" +:+ str_int status +:+ ") at " +:+ url) (Some e))
  | None =>
      if (attempt <? retries c)%Z then
        _ ← time_sleep (backoff c * inject_Z attempt);
        mret (Continue last_err)
      else
        raise (EONETClientError
                 ("EONET request failed after retries at " +:+ url) (Some last_err))
  end.

(** The [for attempt in ...] loop, and the statement after it. *)
Fixpoint for_attempts (c : EONETClient) (url : string) (req : Request)
    (attempts : list Z) (last_err : option exn) : M json :=
  match attempts with
  | [] => raise (EONETClientError ("EONET request failed unexpectedly at " +:+ url) last_err)
  | attempt :: rest =>
      ctl ← try_except (try_block c req) caught (except_block c url attempt);
      match ctl with
      | Return j => mret j
      | Continue e => for_attempts c url req rest (Some e)
      end
  end.

(** [url = f"{self.base_url}/{path.lstrip('/')}"] *)
Definition url_of (c : EONETClient) (path : string) : string :=
  base_url c +:+ "/" +:+ lstrip_slash path.

(** The arguments of [self.session.get(url, params=params or {},
    timeout=self.timeout)]. *)
Definition request_of (c : EONETClient) (path : string)
    (params : option (gmap string json)) : Request :=
  {| req_url := url_of c path;
     req_params := match params with
                   | Some p => if bool_decide (p = ∅) then ∅ else p
                   | None => ∅
                   end;
     req_timeout := timeout c |}.

Definition _get (c : EONETClient) (path : string) (params : option (gmap string json)) : M json :=
  for_attempts c (url_of c path) (request_of c path params)
    (py_range 1 (retries c + 1)) None.

(** Public methods. *)
Definition get_events (c : EONETClient) (category source status : option string)
    (days limit : option Z) : M json :=
  let params : gmap string json := ∅ in
  let params := match category with
                | Some s => if bool_decide (s = "") then params else <["category" := JStr s]> params
                | None => params
                end in
  let params := match source with
                | Some s => if bool_decide (s = "") then params else <["source" := JStr s]> params
                | None => params
                end in
  let params := match status with
                | Some s => if bool_decide (s = "") then params else <["status" := JStr s]> params
                | None => params
                end in
  let params := match days with
                | Some n => <["days" := JInt n]> params
                | None => params
                end in
  let params := match limit with
                | Some n => <["limit" := JInt n]> params
                | None => params
                end in
  _get c "/events" (Some params).

Definition get_categories (c : EONETClient) : M json := _get c "/categories" None.

Definition get_sources (c : EONETClient) : M json := _get c "/sources" None.

End Client.

(** ** The Python runtime the normalizer calls into

    [datetime.fromisoformat], [datetime.isoformat] and the [repr] of
    floats and containers belong to the Python runtime, not to this
    repository, and the grammar [fromisoformat] accepts depends on the
    interpreter's version. The normalizer is therefore modelled over an
    interface; [fromisoformat] returns [None] where Python raises
    [ValueError]. *)
Class Runtime := {
  datetime : Type;
  fromisoformat : string -> option datetime;
  isoformat : datetime -> string;
  repr : json -> string;
}.

(** ** backend/nasa/normalizer.py *)

Module Normalizer.
Section WithRuntime.
Context `{Runtime}.

(** [str(v)] *)
Definition py_str (v : json) : string :=
  match v with
  | JNull => "None"
  | JBool true => "True"
  | JBool false => "False"
  | JInt n => str_int n
  | JStr s => s
  | JFloat _ | JList _ | JDict _ => repr v
  end.

(** [datetime.fromisoformat(s)] *)
Definition datetime_fromisoformat (s : string) : result datetime :=
  match fromisoformat s with
  | Some dt => Ok dt
  | None => Raise (ValueError ("Invalid isoformat string: " +:+ s))
  end.

(** Return ISO string if parseable, else the original string or None. *)
Definition _try_parse_dt (value : json) : json :=
  if negb (truthy value) then JNull
  else
    let attempt :=
      s ← py_replace_Z value;
      dt ← datetime_fromisoformat s;
      mret (JStr (isoformat dt)) in
    match attempt with
    | Ok r => r
    | Raise _ => value
    end.

Record NormalizedGeometry := {
  date : json;
  type : json;
  coordinates : json;
  magnitude_value : json;
  magnitude_unit : json;
}.

Record NormalizedCategory := {
  cat_id : string;
  cat_title : json;
}.

Record NormalizedSource := {
  src_id : string;
  src_url : json;
}.

Record NormalizedEvent := {
  ev_id : string;
  title : json;
  description : json;
  link : json;
  status : string;
  closed : json;
  categories : list NormalizedCategory;
  sources : list NormalizedSource;
  geometry : list NormalizedGeometry;
}.

(** [dataclasses.asdict], one definition per dataclass. *)
Definition asdict_geometry (g : NormalizedGeometry) : json :=
  JDict {[ "date" := date g; "type" := type g; "coordinates" := coordinates g;
           "magnitude_value" := magnitude_value g;
           "magnitude_unit" := magnitude_unit g ]}.

Definition asdict_category (c : NormalizedCategory) : json :=
  JDict {[ "id" := JStr (cat_id c); "title" := cat_title c ]}.

Definition asdict_source (s : NormalizedSource) : json :=
  JDict {[ "id" := JStr (src_id s); "url" := src_url s ]}.

Definition asdict (e : NormalizedEvent) : json :=
  JDict {[ "id" := JStr (ev_id e); "title" := title e;
           "description" := description e; "link" := link e;
           "status" := JStr (status e); "closed" := closed e;
           "categories" := JList (asdict_category <$> categories e);
           "sources" := JList (asdict_source <$> sources e);
           "geometry" := JList (asdict_geometry <$> geometry e) ]}.

(** The body of [for c in (ev.get("categories") or [])]. *)
Definition normalize_category (c : json) : result NormalizedCategory :=
  id ← py_get c "id" (JStr "");
  title ← py_get c "title" JNull;
  mret {| cat_id := py_str id; cat_title := title |}.

(** The body of [for s in (ev.get("sources") or [])]. *)
Definition normalize_source (s : json) : result NormalizedSource :=
  id ← py_get s "id" (JStr "");
  url ← py_get s "url" JNull;
  mret {| src_id := py_str id; src_url := url |}.

(** The body of [for g in (ev.get("geometry") or [])]. *)
Definition normalize_geometry (g : json) : result NormalizedGeometry :=
  date ← py_get g "date" JNull;
  type ← py_get g "type" JNull;
  coordinates ← py_get g "coordinates" JNull;
  magnitude_value ← py_get g "magnitudeValue" JNull;
  magnitude_unit ← py_get g "magnitudeUnit" JNull;
  mret {| date := _try_parse_dt date; type := type; coordinates := coordinates;
          magnitude_value := magnitude_value; magnitude_unit := magnitude_unit |}.

(** [for x in (ev.get(key) or []): out.append(body x)] *)
Definition normalize_each {A} (body : json -> result A) (ev : json) (key : string)
    : result (list A) :=
  v ← py_get ev key JNull;
  items ← py_iter (py_or v (JList []));
  mapM body items.

(** The body of [for ev in raw_events]. *)
Definition normalize_event (ev : json) : result NormalizedEvent :=
  id ← py_get ev "id" (JStr "");
  let ev_id := py_str id in
  title ← py_get ev "title" JNull;
  desc ← py_get ev "description" JNull;
  link ← py_get ev "link" JNull;
  closed_raw ← py_get ev "closed" JNull;
  let closed := _try_parse_dt closed_raw in
  let status := if truthy closed then "closed" else "open" in
  categories ← normalize_each normalize_category ev "categories";
  sources ← normalize_each normalize_source ev "sources";
  geom_list ← normalize_each normalize_geometry ev "geometry";
  mret {| ev_id := ev_id; title := title; description := desc; link := link;
          status := status; closed := closed; categories := categories;
          sources := sources; geometry := geom_list |}.

(** Convert EONET /events response to a stable internal format.
    [utcnow] is the value of [datetime.utcnow()] at the call. *)
Definition normalize_events (utcnow : datetime) (eonet_payload : json) : result json :=
  events ← py_get eonet_payload "events" (JList []);
  let raw_events := py_or events (JList []) in
  items ← py_iter raw_events;
  normalized ← mapM normalize_event items;
  payload_title ← py_get eonet_payload "title" JNull;
  mret (JDict {[ "source" := JStr "NASA_EONET_V3";
                 "title" := payload_title;
                 "generated_at" := JStr (isoformat utcnow +:+ "Z");
                 "count" := JInt (Z.of_nat (length normalized));
                 "events" := JList (asdict <$> normalized) ]}).

End WithRuntime.
End Normalizer.

(** ** A reference runtime

    An executable instance of [Runtime], used to run the normalizer on
    closed examples. [fromisoformat] follows the grammar documented for
    Python 3.7 to 3.10,
    [YYYY-MM-DD[*HH[:MM[:SS[.fff[fff]]]][+HH:MM[:SS[.ffffff]]]]], with
    ASCII digits; [isoformat] is its inverse rendering. *)
Module RefRuntime.

Record datetime := {
  year : Z; month : Z; day : Z;
  hour : Z; minute : Z; second : Z; microsecond : Z;
  (** [tzinfo.utcoffset()] in microseconds, [None] for a naive value *)
  utcoffset : option Z;
}.

Definition digit (a : ascii) : option Z :=
  let n := Z.of_nat (nat_of_ascii a) in
  if (48 <=? n) && (n <=? 57) then Some (n - 48) else None.

Fixpoint digits_from (acc : Z) (s : string) : option Z :=
  match s with
  | EmptyString => Some acc
  | String a s' => d ← digit a; digits_from (10 * acc + d) s'
  end.

(** [int(s)] for a string of exactly [n] digits. *)
Definition int_n (n : nat) (s : string) : option Z :=
  if bool_decide (String.length s = n) then digits_from 0 s else None.

Definition slice (lo hi : nat) (s : string) : string := substring lo (hi - lo) s.
Definition from (lo : nat) (s : string) : string := substring lo (String.length s - lo) s.

Fixpoint find (c : ascii) (s : string) : option nat :=
  match s with
  | EmptyString => None
  | String a s' => if Ascii.eqb a c then Some O else S <$> find c s'
  end.

Definition is_leap (y : Z) : bool :=
  (y mod 4 =? 0) && (negb (y mod 100 =? 0) || (y mod 400 =? 0)).

Definition days_in_month (y m : Z) : Z :=
  if m =? 2 then (if is_leap y then 29 else 28)
  else if (m =? 4) || (m =? 6) || (m =? 9) || (m =? 11) then 30 else 31.

Definition parse_isoformat_date (d : string) : option (Z * Z * Z) :=
  y ← int_n 4 (slice 0 4 d);
  guard (slice 4 5 d = "-");;
  m ← int_n 2 (slice 5 7 d);
  guard (slice 7 8 d = "-");;
  dd ← int_n 2 (slice 8 10 d);
  Some (y, m, dd).

Definition parse_hh_mm_ss_ff (t : string) : option (Z * Z * Z * Z) :=
  hh ← int_n 2 (slice 0 2 t);
  if bool_decide (from 2 t = "") then Some (hh, 0, 0, 0) else
  guard (slice 2 3 t = ":");;
  mm ← int_n 2 (slice 3 5 t);
  if bool_decide (from 5 t = "") then Some (hh, mm, 0, 0) else
  guard (slice 5 6 t = ":");;
  ss ← int_n 2 (slice 6 8 t);
  if bool_decide (from 8 t = "") then Some (hh, mm, ss, 0) else
  guard (slice 8 9 t = ".");;
  let frac := from 9 t in
  if bool_decide (String.length frac = 3%nat) then
    us ← int_n 3 frac; Some (hh, mm, ss, us * 1000)
  else
    us ← int_n 6 frac; Some (hh, mm, ss, us).

Definition parse_isoformat_time (t : string) : option (Z * Z * Z * Z * option Z) :=
  let tz_pos := match find "-" t with
                | Some i => S i
                | None => match find "+" t with Some i => S i | None => O end
                end in
  let timestr := if bool_decide (tz_pos = O) then t else slice 0 (tz_pos - 1) t in
  '(hh, mm, ss, us) ← parse_hh_mm_ss_ff timestr;
  if bool_decide (tz_pos = O) then Some (hh, mm, ss, us, None) else
  let tzstr := from tz_pos t in
  guard (String.length tzstr ∈ [5; 8; 15]%nat);;
  '(th, tm, ts, tu) ← parse_hh_mm_ss_ff tzstr;
  let td := ((th * 3600 + tm * 60 + ts) * 1000000 + tu) in
  let sign := if bool_decide (slice (tz_pos - 1) tz_pos t = "-") then -1 else 1 in
  guard (td < 86400 * 1000000);;
  Some (hh, mm, ss, us, Some (sign * td)).

Definition fromisoformat (s : string) : option datetime :=
  '(y, m, d) ← parse_isoformat_date (slice 0 10 s);
  guard (1 <= y <= 9999 ∧ 1 <= m <= 12 ∧ 1 <= d <= days_in_month y m);;
  let tstr := from 11 s in
  if bool_decide (tstr = "") then
    Some {| year := y; month := m; day := d; hour := 0; minute := 0; second := 0;
            microsecond := 0; utcoffset := None |}
  else
    '(hh, mm, ss, us, tz) ← parse_isoformat_time tstr;
    guard (hh <= 23 ∧ mm <= 59 ∧ ss <= 59);;
    Some {| year := y; month := m; day := d; hour := hh; minute := mm; second := ss;
            microsecond := us; utcoffset := tz |}.

(** ["%0<width>d" % n] for [0 <= n]. *)
Definition zero_pad (width : nat) (n : Z) : string :=
  let s := str_int n in
  string_of_list_ascii (replicate (width - String.length s) "0"%char) +:+ s.

Definition format_offset (off : Z) : string :=
  let a := Z.abs off in
  let us := a mod 1000000 in
  let secs := a / 1000000 in
  (if off <? 0 then "-" else "+")
  +:+ zero_pad 2 (secs / 3600) +:+ ":" +:+ zero_pad 2 (secs / 60 mod 60)
  +:+ (if (secs mod 60 =? 0) && (us =? 0) then "" else ":" +:+ zero_pad 2 (secs mod 60))
  +:+ (if us =? 0 then "" else "." +:+ zero_pad 6 us).

Definition isoformat (dt : datetime) : string :=
  zero_pad 4 (year dt) +:+ "-" +:+ zero_pad 2 (month dt) +:+ "-" +:+ zero_pad 2 (day dt)
  +:+ "T" +:+ zero_pad 2 (hour dt) +:+ ":" +:+ zero_pad 2 (minute dt)
  +:+ ":" +:+ zero_pad 2 (second dt)
  +:+ (if microsecond dt =? 0 then "" else "." +:+ zero_pad 6 (microsecond dt))
  +:+ match utcoffset dt with
      | Some off => format_offset off
      | None => ""
      end.

(** The [repr] of floats and containers is not modelled: this runtime
    renders them as a tag naming the type. *)
Definition repr (v : json) : string := "<" +:+ type_name v +:+ ">".

Definition runtime : Runtime := Build_Runtime datetime fromisoformat isoformat repr.

End RefRuntime.

Import Client Normalizer.

(** * Vocabulary of the properties *)

(** ** Client *)

(** Statuses that neither the 5xx test nor [raise_for_status] rejects. *)
Definition passes (status : Z) : bool := negb ((400 <=? status) && (status <? 600)).

(** A failed attempt that the loop retries (a 5xx status, a 429, a
    network failure), with the exception its [except] clause binds. *)
Definition retryable_failure (o : outcome) : option exn :=
  match o with
  | Responded r =>
      let status := status_code r in
      if (500 <=? status) && (status <? 600) then
        Some (HTTPError ("Server error " +:+ str_int status) (Some r))
      else if status =? 429 then
        Some (HTTPError (str_int status +:+ " Client Error: " +:+ reason r
                           +:+ " for url: " +:+ resp_url r) (Some r))
      else None
  | Failed Timeout => Some Timeout
  | Failed ConnectionError => Some ConnectionError
  | Failed (HTTPError msg None) => Some (HTTPError msg None)
  | Failed (HTTPError msg (Some r)) =>
      let status := status_code r in
      if (400 <=? status) && (status <? 500) && negb (status =? 429) then None
      else Some (HTTPError msg (Some r))
  | Failed _ => None
  end.

Definition is_client_error (e : exn) : bool :=
  match e with
  | EONETClientError _ _ => true
  | _ => false
  end.

(** The exceptions that leave [_get]: the client's own error; an
    exception of [session.get] outside the classes of the [except]
    clause; the failure of [resp.json()] on a response that passed the
    status checks; the rejection of a negative sleep. *)
Inductive propagates (c : EONETClient) : exn -> Prop :=
| propagates_client_error msg cause :
    propagates c (EONETClientError msg cause)
| propagates_session n req e :
    session c n req = Failed e -> caught e = false -> propagates c e
| propagates_json n req r :
    session c n req = Responded r -> passes (status_code r) = true ->
    body_json r = None -> propagates c JSONDecodeError
| propagates_sleep :
    (backoff c < 0)%Q -> 1 < retries c ->
    propagates c (ValueError "sleep length must be non-negative").

(** ** Normalizer *)

Definition is_dict (v : json) : bool :=
  match v with
  | JDict _ => true
  | _ => false
  end.

(** What a loop of the normalizer accepts where it expects a sequence of
    sub-objects: a falsy value (in particular [None], which an absent key
    reads as, and the empty list), or a list of [good] items. *)
Definition seq_of (good : json -> bool) (v : json) : bool :=
  negb (truthy v)
  || match v with
     | JList l => forallb good l
     | _ => false
     end.

Definition seq_of_dicts : json -> bool := seq_of is_dict.

(** [d.get(key)] *)
Definition field (d : gmap string json) (key : string) : json :=
  default JNull (d !! key).

Definition well_shaped_event (ev : json) : bool :=
  match ev with
  | JDict d =>
      seq_of_dicts (field d "categories") && seq_of_dicts (field d "sources")
      && seq_of_dicts (field d "geometry")
  | _ => false
  end.

Definition well_shaped_payload (payload : json) : bool :=
  match payload with
  | JDict d => seq_of well_shaped_event (default (JList []) (d !! "events"))
  | _ => false
  end.

Fixpoint has_char (a : ascii) (s : string) : bool :=
  match s with
  | EmptyString => false
  | String b s' => Ascii.eqb b a || has_char a s'
  end.

(** ** Closed examples *)

Definition response (status : Z) (body : option json) : Response :=
  {| status_code := status; reason := ""; resp_url := ""; body_json := body |}.

(** A session that answers its calls from a script, then with [last]. *)
Definition scripted (script : list outcome) (last : outcome) : Session :=
  fun n _ => nth n script last.

Definition client_of (retries : Z) (backoff : Q) (s : Session) : EONETClient :=
  {| base_url := "https://eonet.gsfc.nasa.gov/api/v3"; timeout := 15;
     retries := retries; backoff := backoff; session := s |}.

(** Two server errors, then a success. *)
Definition flaky_client : EONETClient :=
  client_of 3 (7 # 10)
    (scripted [Responded (response 500 None); Responded (response 500 None)]
       (Responded (response 200 (Some (JDict {[ "title" := JStr "T" ]}))))).

Definition not_found_client : EONETClient :=
  client_of 3 (7 # 10) (scripted [] (Responded (response 404 None))).

(** One 429, then a success. *)
Definition throttled_client : EONETClient :=
  client_of 3 (7 # 10)
    (scripted [Responded (response 429 None)] (Responded (response 200 (Some JNull)))).

Definition unavailable_client : EONETClient :=
  client_of 2 (7 # 10) (scripted [] (Responded (response 503 None))).

(** A 200 response whose body is not JSON. *)
Definition html_client : EONETClient :=
  client_of 3 (7 # 10) (scripted [] (Responded (response 200 None))).

Definition events_request : Request :=
  {| req_url := "https://eonet.gsfc.nasa.gov/api/v3/events"; req_params := ∅;
     req_timeout := 15 |}.

(** A fixed instant for [datetime.utcnow()]. *)
Definition sample_now : RefRuntime.datetime :=
  RefRuntime.Build_datetime 2024 5 6 7 8 9 0 None.

(** The end-to-end example of the specification. *)
Definition sample_payload : json :=
  JDict {[ "title" := JStr "T";
           "events" := JList [
             JDict {[ "id" := JInt 1; "title" := JStr "Fire A"; "closed" := JNull;
                      "categories" := JList [
                        JDict {[ "id" := JStr "wildfires"; "title" := JStr "Wildfires" ]} ];
                      "sources" := JList [];
                      "geometry" := JList [
                        JDict {[ "date" := JStr "2024-01-01T00:00:00Z";
                                 "type" := JStr "Point";
                                 "coordinates" := JList [JFloat 1; JFloat 2] ]} ] ]} ] ]}.

Definition sample_output : json :=
  JDict {[ "source" := JStr "NASA_EONET_V3";
           "title" := JStr "T";
           "generated_at" := JStr "2024-05-06T07:08:09Z";
           "count" := JInt 1;
           "events" := JList [
             JDict {[ "id" := JStr "1"; "title" := JStr "Fire A";
                      "description" := JNull; "link" := JNull;
                      "status" := JStr "open"; "closed" := JNull;
                      "categories" := JList [
                        JDict {[ "id" := JStr "wildfires"; "title" := JStr "Wildfires" ]} ];
                      "sources" := JList [];
                      "geometry" := JList [
                        JDict {[ "date" := JStr "2024-01-01T00:00:00+00:00";
                                 "type" := JStr "Point";
                                 "coordinates" := JList [JFloat 1; JFloat 2];
                                 "magnitude_value" := JNull;
                                 "magnitude_unit" := JNull ]} ] ]} ] ]}.

(** An event whose ["categories"] is a string instead of a list. *)
Definition malformed_payload : json :=
  JDict {[ "events" := JList [
             JDict {[ "id" := JStr "EONET_1"; "categories" := JStr "wildfires" ]} ] ]}.

(** Two events: one whose ["id"] is [null], one whose ["closed"] is a
    number. *)
Definition odd_events : list json :=
  [ JDict {[ "id" := JNull ]};
    JDict {[ "id" := JStr "EONET_2"; "closed" := JInt 20240101 ]} ].

Definition odd_payload : gmap string json := {[ "events" := JList odd_events ]}.

Definition odd_output : json :=
  JDict {[ "source" := JStr "NASA_EONET_V3";
           "title" := JNull;
           "generated_at" := JStr "2024-05-06T07:08:09Z";
           "count" := JInt 2;
           "events" := JList [
             JDict {[ "id" := JStr "None"; "title" := JNull;
                      "description" := JNull; "link" := JNull;
                      "status" := JStr "open"; "closed" := JNull;
                      "categories" := JList []; "sources" := JList [];
                      "geometry" := JList [] ]};
             JDict {[ "id" := JStr "EONET_2"; "title" := JNull;
                      "description" := JNull; "link" := JNull;
                      "status" := JStr "closed"; "closed" := JInt 20240101;
                      "categories" := JList []; "sources" := JList [];
                      "geometry" := JList [] ]} ] ]}.

(** ** backend/nasa/routes.py *)

(** [str.isdigit] and [int] are modelled on plain text: ASCII, and short
    enough that no interpreter limits the conversion (the limit on the
    digits of an [int] cannot be set below 640). On other text they
    depend on the interpreter's Unicode tables and settings, and are left
    to this interface; [long_int] is [None] where [int] raises
    [ValueError]. *)
Class TextRuntime := {
  unicode_isdigit : string -> bool;
  long_int : string -> option Z;
}.

Module Routes.
Section WithRuntime.
Context `{Runtime} `{TextRuntime}.

(** [client = EONETClient()], built when the module is loaded. *)
Definition client (settings : Settings) (new_session : Session) : EONETClient :=
  __init__ settings new_session None None None None None.

Definition is_ascii (s : string) : bool :=
  forallb (fun a => (nat_of_ascii a <? 128)%nat) (list_ascii_of_string s).

Definition is_plain (s : string) : bool :=
  is_ascii s && (String.length s <=? 640)%nat.

Definition decimal_digit (a : ascii) : bool :=
  (48 <=? nat_of_ascii a)%nat && (nat_of_ascii a <=? 57)%nat.

(** The value of a string of decimal digits. *)
Fixpoint decimal_value (acc : Z) (s : string) : Z :=
  match s with
  | EmptyString => acc
  | String a s' => decimal_value (10 * acc + (Z.of_nat (nat_of_ascii a) - 48)) s'
  end.

(** [s.isdigit()] *)
Definition isdigit (s : string) : bool :=
  if is_ascii s then
    negb (bool_decide (s = "")) && forallb decimal_digit (list_ascii_of_string s)
  else unicode_isdigit s.

(** [int(s)] for a string on which [isdigit] holds. *)
Definition int_of_digits (s : string) : result Z :=
  if is_plain s then Ok (decimal_value 0 s)
  else match long_int s with
       | Some n => Ok n
       | None => Raise (ValueError ("invalid literal for int() with base 10: " +:+ s))
       end.

(** [request.args]: the first value of each query parameter. *)
Definition Args := gmap string string.

(** [request.args.get(key) or None] *)
Definition text_arg (args : Args) (key : string) : option string :=
  match args !! key with
  | Some s => if bool_decide (s = "") then None else Some s
  | None => None
  end.

(** [v = request.args.get(key); int(v) if v and v.isdigit() else None] *)
Definition int_arg (args : Args) (key : string) : result (option Z) :=
  match args !! key with
  | Some v =>
      if negb (bool_decide (v = "")) && isdigit v then Some <$> int_of_digits v
      else Ok None
  | None => Ok None
  end.

Record QueryParams := {
  qp_category : option string;
  qp_source : option string;
  qp_status : option string;
  qp_days : option Z;
  qp_limit : option Z;
}.

Definition _get_query_params (args : Args) : result QueryParams :=
  let category := text_arg args "category" in
  let source := text_arg args "source" in
  let status := text_arg args "status" in
  days_int ← int_arg args "days";
  limit_int ← int_arg args "limit";
  mret {| qp_category := category; qp_source := source; qp_status := status;
          qp_days := days_int; qp_limit := limit_int |}.

(** What a view returns: [jsonify(body), status]. *)
Record HttpResponse := {
  body : json;
  http_status : Z;
}.

(** A pure computation inside a view. *)
Definition lift {A} (r : result A) : M A := fun w => (r, w).

(** [str(e)] for the [EONETClientError] that a view binds. *)
Definition client_error_message (e : exn) : string :=
  match e with
  | EONETClientError msg _ => msg
  | _ => ""
  end.

(** [except EONETClientError as e: return jsonify({...}), 502] *)
Definition upstream_error (e : exn) : M HttpResponse :=
  mret {| body := JDict {[ "error" := JStr "EONET_UPSTREAM_ERROR";
                            "message" := JStr (client_error_message e) ]};
          http_status := 502 |}.

(** [GET /api/nasa/raw/events] *)
Definition raw_events (c : EONETClient) (args : Args) : M HttpResponse :=
  q ← lift (_get_query_params args);
  try_except
    (payload ← get_events c (qp_category q) (qp_source q) (qp_status q)
                 (qp_days q) (qp_limit q);
     mret {| body := payload; http_status := 200 |})
    is_client_error upstream_error.

(** [GET /api/nasa/normalized/events]; [utcnow] is the value of
    [datetime.utcnow()] when the payload is normalized. *)
Definition normalized_events (c : EONETClient) (utcnow : datetime) (args : Args)
    : M HttpResponse :=
  q ← lift (_get_query_params args);
  try_except
    (payload ← get_events c (qp_category q) (qp_source q) (qp_status q)
                 (qp_days q) (qp_limit q);
     normalized ← lift (normalize_events utcnow payload);
     mret {| body := normalized; http_status := 200 |})
    is_client_error upstream_error.

(** [GET /api/nasa/categories] *)
Definition categories (c : EONETClient) : M HttpResponse :=
  try_except
    (payload ← get_categories c;
     mret {| body := payload; http_status := 200 |})
    is_client_error upstream_error.

(** [GET /api/nasa/sources] *)
Definition sources (c : EONETClient) : M HttpResponse :=
  try_except
    (payload ← get_sources c;
     mret {| body := payload; http_status := 200 |})
    is_client_error upstream_error.

End WithRuntime.
End Routes.

(** ** More vocabulary *)

(** The effects of [m] failed attempts, numbered from [first], each
    followed by its backoff sleep. *)
Fixpoint backoffs (req : Request) (b : Q) (first : Z) (m : nat) : list event :=
  match m with
  | O => []
  | S m' => EvGet req :: EvSleep (b * inject_Z first) :: backoffs req b (first + 1) m'
  end.

(** The effects of [k] attempts numbered from [first]: a sleep separates
    two attempts, and none follows the last. *)
Definition attempts_trace (req : Request) (b : Q) (first : Z) (k : nat) : list event :=
  match k with
  | O => []
  | S m => backoffs req b first m ++ [EvGet req]
  end.

(** [n] slashes. *)
Fixpoint slashes (n : nat) : string :=
  match n with
  | O => ""
  | S n' => String "/" (slashes n')
  end.

Definition starts_with_slash (s : string) : bool :=
  match s with
  | String a _ => Ascii.eqb a "/"
  | EmptyString => false
  end.

Fixpoint ends_with_slash (s : string) : bool :=
  match s with
  | EmptyString => false
  | String a EmptyString => Ascii.eqb a "/"
  | String _ s' => ends_with_slash s'
  end.

(** A text filter as the client and the views read it: an empty string
    counts as absent. *)
Definition given (o : option string) : option string :=
  match o with
  | Some s => if bool_decide (s = "") then None else Some s
  | None => None
  end.

(** [if v is given: params[key] = v] *)
Definition set_if_given (key : string) (v : option json) (params : gmap string json)
    : gmap string json :=
  match v with
  | Some x => <[key := x]> params
  | None => params
  end.

(** The exceptions a value of the wrong type makes the normalizer raise. *)
Definition is_shape_error (e : exn) : bool :=
  match e with
  | AttributeError _ | TypeError _ => true
  | _ => false
  end.

(** The keys [normalize_events] reads: in an event besides ["id"], and in
    the payload. *)
Definition event_fields : list string :=
  ["title"; "description"; "link"; "closed"; "categories"; "sources"; "geometry"].

Definition payload_fields : list string := ["events"; "title"].

(** A mapping with exactly the keys [keys]. *)
Definition has_keys (keys : gset string) (v : json) : Prop :=
  exists m : gmap string json, v = JDict m /\ dom m = keys.

(** The value under [key] is a list whose items all satisfy [P]. *)
Definition list_under (key : string) (P : json -> Prop) (v : json) : Prop :=
  exists (m : gmap string json) (l : list json),
    v = JDict m /\ m !! key = Some (JList l) /\ Forall P l.

(** The value under [key] is a string. *)
Definition str_under (key : string) (v : json) : Prop :=
  exists (m : gmap string json) (s : string), v = JDict m /\ m !! key = Some (JStr s).

(** The normalized schema. *)
Definition category_schema (v : json) : Prop :=
  has_keys {[ "id"; "title" ]} v /\ str_under "id" v.

Definition source_schema (v : json) : Prop :=
  has_keys {[ "id"; "url" ]} v /\ str_under "id" v.

Definition geometry_schema (v : json) : Prop :=
  has_keys {[ "date"; "type"; "coordinates"; "magnitude_value"; "magnitude_unit" ]} v.

Definition event_schema (v : json) : Prop :=
  has_keys {[ "id"; "title"; "description"; "link"; "status"; "closed";
              "categories"; "sources"; "geometry" ]} v
  /\ str_under "id" v /\ str_under "status" v
  /\ list_under "categories" category_schema v
  /\ list_under "sources" source_schema v
  /\ list_under "geometry" geometry_schema v.

Definition response_schema (v : json) : Prop :=
  has_keys {[ "source"; "title"; "generated_at"; "count"; "events" ]} v
  /\ str_under "source" v /\ str_under "generated_at" v
  /\ list_under "events" event_schema v.

(** A non-empty string of ASCII decimal digits. *)
Definition all_digits (s : string) : bool :=
  negb (bool_decide (s = ""))
  && forallb Routes.decimal_digit (list_ascii_of_string s).

(** The body of the 502 answer of a view. *)
Definition error_envelope (message : string) : Routes.HttpResponse :=
  {| Routes.body := JDict {[ "error" := JStr "EONET_UPSTREAM_ERROR";
                             "message" := JStr message ]};
     Routes.http_status := 502 |}.

(** ** More closed examples *)

(** A text runtime for the examples, which are all plain ASCII: it calls
    no other character a digit and converts no long literal. *)
Definition ascii_text : TextRuntime :=
  {| unicode_isdigit := fun _ => false; long_int := fun _ => None |}.

(** The defaults of [backend/config.py]. *)
Definition default_settings : Settings :=
  {| EONET_BASE_URL := "https://eonet.gsfc.nasa.gov/api/v3"; NASA_API_KEY := None;
     HTTP_TIMEOUT_SECONDS := 15; HTTP_RETRIES := 3; HTTP_BACKOFF_SECONDS := 7 # 10 |}.

Definition always (o : outcome) : Session := scripted [] o.

(** A client built with [retries=0]. *)
Definition no_budget_client : EONETClient :=
  __init__ default_settings (always (Responded (response 200 (Some JNull))))
    None None (Some 0) None None.

(** A server error, then a 404. *)
Definition gone_client : EONETClient :=
  client_of 3 (7 # 10)
    (scripted [Responded (response 500 None)] (Responded (response 404 None))).

(** An upstream that answers with the example payload. *)
Definition events_client : EONETClient :=
  client_of 3 (7 # 10) (always (Responded (response 200 (Some sample_payload)))).

(** An upstream that answers with a JSON list. *)
Definition list_client : EONETClient :=
  client_of 3 (7 # 10) (always (Responded (response 200 (Some (JList [JInt 1]))))).

Definition server_error : exn := HTTPError "Server error 500" (Some (response 500 None)).

Definition unavailable : exn := HTTPError "Server error 503" (Some (response 503 None)).

(** [?category=wildfires&status=&days=30&limit=-5] *)
Definition sample_args : Routes.Args :=
  {[ "category" := "wildfires"; "status" := ""; "days" := "30"; "limit" := "-5" ]}.

Definition sample_query : Routes.QueryParams :=
  {| Routes.qp_category := Some "wildfires"; Routes.qp_source := None;
     Routes.qp_status := None; Routes.qp_days := Some 30; Routes.qp_limit := None |}.

Definition sample_params : gmap string json :=
  {[ "category" := JStr "wildfires"; "days" := JInt 30 ]}.

(** The geometry entry of a storm, with a magnitude. *)
Definition storm_geometry : gmap string json :=
  {[ "date" := JStr "2024-08-01T12:00:00Z"; "type" := JStr "Point";
     "coordinates" := JList [JFloat (-605 # 10); JFloat (253 # 10)];
     "magnitudeValue" := JFloat 45; "magnitudeUnit" := JStr "kts" ]}.

Definition storm_source : gmap string json :=
  {[ "id" := JStr "JTWC"; "url" := JStr "https://www.metoc.navy.mil/jtwc/" ]}.

Definition storm_event : gmap string json :=
  {[ "id" := JStr "EONET_7"; "title" := JStr "Storm";
     "categories" := JList [JDict {[ "id" := JInt 10; "title" := JStr "Severe Storms" ]}];
     "sources" := JList [JDict storm_source];
     "geometry" := JList [JDict storm_geometry] ]}.

Definition storm_payload : gmap string json :=
  {[ "title" := JStr "EONET Events"; "events" := JList [JDict storm_event] ]}.

Definition storm_output : json :=
  JDict {[ "source" := JStr "NASA_EONET_V3";
           "title" := JStr "EONET Events";
           "generated_at" := JStr "2024-05-06T07:08:09Z";
           "count" := JInt 1;
           "events" := JList [
             JDict {[ "id" := JStr "EONET_7"; "title" := JStr "Storm";
                      "description" := JNull; "link" := JNull;
                      "status" := JStr "open"; "closed" := JNull;
                      "categories" := JList [
                        JDict {[ "id" := JStr "10"; "title" := JStr "Severe Storms" ]} ];
                      "sources" := JList [
                        JDict {[ "id" := JStr "JTWC";
                                 "url" := JStr "https://www.metoc.navy.mil/jtwc/" ]} ];
                      "geometry" := JList [
                        JDict {[ "date" := JStr "2024-08-01T12:00:00+00:00";
                                 "type" := JStr "Point";
                                 "coordinates" :=
                                   JList [JFloat (-605 # 10); JFloat (253 # 10)];
                                 "magnitude_value" := JFloat 45;
                                 "magnitude_unit" := JStr "kts" ]} ] ]} ] ]}.

(** * Properties of the client *)

Section ClientSteps.

Lemma propagates_not_caught c e : propagates c e -> caught e = false.
Proof. by destruct 1. Qed.

Lemma attempts_positive n : Forall (fun attempt => 1 <= attempt) (py_range 1 (n + 1)).
Proof. apply Forall_seqZ. lia. Qed.

Lemma gets_app (w1 w2 : world) : gets (w1 ++ w2) = (gets w1 + gets w2)%nat.
Proof. unfold gets. by rewrite List.filter_app, length_app. Qed.

Lemma sleeps_app (w1 w2 : world) : sleeps (w1 ++ w2) = sleeps w1 ++ sleeps w2.
Proof. apply omap_app. Qed.

Lemma gets_app_retry w r d : gets (w ++ [EvGet r; EvSleep d]) = S (gets w).
Proof. rewrite gets_app. cbn. lia. Qed.

Lemma backoff_sleep_accepted (b : Q) (attempt : Z) :
  (0 <= b)%Q -> 0 <= attempt -> Qle_bool 0 (b * inject_Z attempt) = true.
Proof.
  intros Hb Ha. apply Qle_bool_iff, Qmult_le_0_compat; [done|].
  unfold Qle. simpl. lia.
Qed.

Variable c : EONETClient.
Variable url : string.
Variable req : Request.

Lemma for_attempts_return attempt rest last_err w r j :
  session c (gets w) req = Responded r ->
  passes (status_code r) = true ->
  body_json r = Some j ->
  for_attempts c url req (attempt :: rest) last_err w = (Ok j, w ++ [EvGet req]).
Proof.
  intros Hs Hp Hj. unfold passes in Hp.
  cbn [for_attempts]. unfold mbind, M_bind, try_except, try_block, session_get at 1.
  unfold mbind, M_bind. rewrite Hs.
  destruct (500 <=? status_code r) eqn:E5, (status_code r <? 600) eqn:E6;
    cbn [andb]; unfold raise_for_status, resp_json;
    destruct (400 <=? status_code r) eqn:E4, (status_code r <? 500) eqn:E45;
    cbn [andb] in *; try rewrite E5; try rewrite E6; cbn [andb]; try rewrite Hj;
    try reflexivity; try discriminate; lia.
Qed.

Lemma for_attempts_abort attempt rest last_err w r :
  session c (gets w) req = Responded r ->
  400 <= status_code r < 500 ->
  status_code r <> 429 ->
  for_attempts c url req (attempt :: rest) last_err w =
    (Raise (EONETClientError
              ("EONET request failed (" +:+ str_int (status_code r) +:+ ") at " +:+ url)
              (Some (HTTPError (str_int (status_code r) +:+ " Client Error: " +:+ reason r
                                  +:+ " for url: " +:+ resp_url r) (Some r)))),
     w ++ [EvGet req]).
Proof.
  intros Hs [Hlo Hhi] Hne.
  cbn [for_attempts]. unfold mbind, M_bind, try_except, try_block, session_get at 1.
  unfold mbind, M_bind. rewrite Hs.
  replace (500 <=? status_code r) with false by lia. cbn [andb].
  unfold raise_for_status.
  replace (400 <=? status_code r) with true by lia.
  replace (status_code r <? 500) with true by lia.
  cbn [andb]. unfold raise at 1. cbn [caught]. unfold except_block, non_retryable_status.
  replace (400 <=? status_code r) with true by lia.
  replace (status_code r <? 500) with true by lia.
  replace (status_code r =? 429) with false by lia. reflexivity.
Qed.

Lemma try_block_retryable w e :
  retryable_failure (session c (gets w) req) = Some e ->
  try_block c req w = (Raise e, w ++ [EvGet req])
  /\ caught e = true /\ non_retryable_status e = None.
Proof.
  unfold retryable_failure, try_block, session_get, mbind, M_bind.
  destruct (session c (gets w) req) as [r|e0]; intros He.
  - destruct ((500 <=? status_code r) && (status_code r <? 600)) eqn:E5.
    + simplify_eq. split_and!; [done..|].
      cbn [non_retryable_status].
      replace (status_code r <? 500) with false by lia.
      by rewrite andb_false_r.
    + destruct (status_code r =? 429) eqn:E; [|done]. simplify_eq.
      unfold raise_for_status. apply Z.eqb_eq in E. rewrite E.
      split_and!; try done. cbn [non_retryable_status]. by rewrite E.
  - destruct e0 as [| |m [r|]| | | | | |]; try done; simplify_eq; try done.
    destruct ((400 <=? status_code r) && (status_code r <? 500)
              && negb (status_code r =? 429)) eqn:E; simplify_eq.
    split_and!; try done. cbn [non_retryable_status]. by rewrite E.
Qed.

Lemma for_attempts_retry attempt rest last_err w e :
  retryable_failure (session c (gets w) req) = Some e ->
  attempt < retries c ->
  Qle_bool 0 (backoff c * inject_Z attempt) = true ->
  for_attempts c url req (attempt :: rest) last_err w =
    for_attempts c url req rest (Some e)
      (w ++ [EvGet req; EvSleep (backoff c * inject_Z attempt)]).
Proof.
  intros He Hlt Hq. destruct (try_block_retryable w e He) as (Hb & Hc & Hn).
  cbn [for_attempts]. unfold mbind at 1, M_bind at 1, try_except. rewrite Hb, Hc.
  unfold except_block. rewrite Hn.
  replace (attempt <? retries c) with true by lia.
  unfold mbind, M_bind, time_sleep. rewrite Hq.
  by rewrite <- app_assoc.
Qed.

Lemma for_attempts_exhausted attempt rest last_err w e :
  retryable_failure (session c (gets w) req) = Some e ->
  retries c <= attempt ->
  for_attempts c url req (attempt :: rest) last_err w =
    (Raise (EONETClientError ("EONET request failed after retries at " +:+ url) (Some e)),
     w ++ [EvGet req]).
Proof.
  intros He Hlt. destruct (try_block_retryable w e He) as (Hb & Hc & Hn).
  cbn [for_attempts]. unfold mbind at 1, M_bind at 1, try_except. rewrite Hb, Hc.
  unfold except_block. rewrite Hn.
  by replace (attempt <? retries c) with false by lia.
Qed.

Lemma try_block_returns w w' ctl :
  try_block c req w = (Ok ctl, w') ->
  exists r j, session c (gets w) req = Responded r /\ passes (status_code r) = true
              /\ body_json r = Some j /\ ctl = Return j /\ w' = w ++ [EvGet req].
Proof.
  unfold try_block, session_get, mbind, M_bind, raise_for_status, resp_json, passes.
  destruct (session c (gets w) req) as [r|e0]; [|done].
  destruct ((500 <=? status_code r) && (status_code r <? 600)) eqn:E5; [done|].
  destruct ((400 <=? status_code r) && (status_code r <? 500)) eqn:E4; [done|].
  cbn. destruct (body_json r) as [j|] eqn:Ej; [|done]. intros [= <- <-].
  exists r, j. split_and!; try done.
  apply andb_false_iff in E5, E4. apply negb_true_iff, andb_false_iff. lia.
Qed.

Lemma try_block_raises w w' e :
  try_block c req w = (Raise e, w') ->
  caught e = true \/ propagates c e.
Proof.
  unfold try_block, session_get, mbind, M_bind, raise_for_status, resp_json.
  destruct (session c (gets w) req) as [r|e0] eqn:Hs.
  - destruct ((500 <=? status_code r) && (status_code r <? 600)) eqn:E5;
      [intros [= <- _]; by left|].
    destruct ((400 <=? status_code r) && (status_code r <? 500)) eqn:E4;
      [intros [= <- _]; by left|].
    cbn. destruct (body_json r) as [j|] eqn:Ej; [done|]. intros [= <- _].
    right. eapply propagates_json; [done| |done].
    apply andb_false_iff in E5, E4. apply negb_true_iff, andb_false_iff. lia.
  - intros [= <- _]. destruct (caught e0) eqn:Hc; [by left|].
    right. by eapply propagates_session.
Qed.

Lemma except_block_cases attempt e w res w' :
  1 <= attempt ->
  except_block c url attempt e w = (res, w') ->
  res = Ok (Continue e) \/ exists e', res = Raise e' /\ propagates c e'.
Proof.
  intros Ha. unfold except_block.
  destruct (non_retryable_status e) as [status|].
  { intros [= <- _]. right. eexists. split; [done|]. constructor. }
  destruct (attempt <? retries c) eqn:Hlt.
  - unfold mbind, M_bind, time_sleep.
    destruct (Qle_bool 0 (backoff c * inject_Z attempt)) eqn:Hq.
    + intros [= <- _]. by left.
    + intros [= <- _]. right. eexists. split; [done|].
      apply propagates_sleep; [|lia].
      destruct (Qlt_le_dec (backoff c) 0) as [|Hb]; [done|].
      rewrite backoff_sleep_accepted in Hq; [done..|lia].
  - intros [= <- _]. right. eexists. split; [done|]. constructor.
Qed.

Lemma for_attempts_raises attempts last_err w e w' :
  Forall (fun attempt => 1 <= attempt) attempts ->
  for_attempts c url req attempts last_err w = (Raise e, w') ->
  propagates c e.
Proof.
  intros Hpos. revert last_err w.
  induction Hpos as [|attempt rest Ha _ IH]; intros last_err w.
  { intros [= <- _]. constructor. }
  cbn [for_attempts]. unfold mbind at 1, M_bind at 1, try_except.
  destruct (try_block c req w) as [[ctl|e0] w1] eqn:Hb.
  - apply try_block_returns in Hb as (r & j & _ & _ & _ & -> & _).
    unfold mret, M_ret. by intros [=].
  - apply try_block_raises in Hb as [Hc|Hp].
    + rewrite Hc.
      destruct (except_block c url attempt e0 w1) as [res w2] eqn:Hx.
      apply (except_block_cases _ _ _ _ _ Ha) in Hx as [->|(e' & -> & Hp)].
      * apply IH.
      * by intros [= <- _].
    + destruct (caught e0); [|by intros [= <- _]].
      destruct (except_block c url attempt e0 w1) as [res w2] eqn:Hx.
      apply (except_block_cases _ _ _ _ _ Ha) in Hx as [->|(e' & -> & Hp')].
      * apply IH.
      * by intros [= <- _].
Qed.

End ClientSteps.

Lemma get_raises c path params w e w' :
  _get c path params w = (Raise e, w') -> propagates c e.
Proof. apply for_attempts_raises, attempts_positive. Qed.




(** C3. With [retries = 3] (and a backoff base that [time.sleep] accepts,
    that is, a non-negative one), when the first two attempts receive
    status 500 and the third receives a status that passes with a JSON body
    [j], [_get] returns [j]; its effects are three GETs separated by two
    sleeps, of [backoff * 1] then [backoff * 2] seconds. *)
Theorem get_succeeds_on_third_attempt (c : EONETClient) (path : string)
    (params : option (gmap string json)) (w : world) (r1 r2 r3 : Response) (j : json) :
  retries c = 3 ->
  (0 <= backoff c)%Q ->
  session c (gets w) (request_of c path params) = Responded r1 ->
  status_code r1 = 500 ->
  session c (S (gets w)) (request_of c path params) = Responded r2 ->
  status_code r2 = 500 ->
  session c (S (S (gets w))) (request_of c path params) = Responded r3 ->
  passes (status_code r3) = true ->
  body_json r3 = Some j ->
  _get c path params w =
    (Ok j, w ++ [EvGet (request_of c path params); EvSleep (backoff c * 1);
                 EvGet (request_of c path params); EvSleep (backoff c * 2);
                 EvGet (request_of c path params)])
  /\ sleeps (_get c path params w).2 = sleeps w ++ [(backoff c * 1)%Q; (backoff c * 2)%Q]
  /\ gets (_get c path params w).2 = (gets w + 3)%nat.
Proof.
  intros Hn Hb H1 S1 H2 S2 H3 S3 Hj.
  assert (_get c path params w =
    (Ok j, w ++ [EvGet (request_of c path params); EvSleep (backoff c * 1);
                 EvGet (request_of c path params); EvSleep (backoff c * 2);
                 EvGet (request_of c path params)])) as Hget.
  { unfold _get. rewrite Hn. change (py_range 1 (3 + 1)) with [1; 2; 3].
    erewrite for_attempts_retry; [| |lia|by apply backoff_sleep_accepted].
    2:{ rewrite H1. unfold retryable_failure. by rewrite S1. }
    erewrite for_attempts_retry; [| |lia|by apply backoff_sleep_accepted].
    2:{ rewrite gets_app_retry, H2. unfold retryable_failure. by rewrite S2. }
    erewrite for_attempts_return; [| |done..].
    2:{ rewrite !gets_app_retry. apply H3. }
    by rewrite <- !app_assoc. }
  rewrite Hget. cbn [snd]. split_and!; [done| |].
  - by rewrite sleeps_app.
  - rewrite gets_app. cbn. lia.
Qed.

Lemma get_succeeds_on_third_attempt_witness :
  _get flaky_client "/events" None [] =
    (Ok (JDict {[ "title" := JStr "T" ]}),
     [] ++ [EvGet (request_of flaky_client "/events" None); EvSleep ((7 # 10) * 1);
            EvGet (request_of flaky_client "/events" None); EvSleep ((7 # 10) * 2);
            EvGet (request_of flaky_client "/events" None)])
  /\ sleeps (_get flaky_client "/events" None []).2 =
       sleeps [] ++ [((7 # 10) * 1)%Q; ((7 # 10) * 2)%Q]
  /\ gets (_get flaky_client "/events" None []).2 = (gets [] + 3)%nat.
Proof.
  apply (get_succeeds_on_third_attempt flaky_client "/events" None []
           (response 500 None) (response 500 None)
           (response 200 (Some (JDict {[ "title" := JStr "T" ]})))).
  all: try reflexivity.
  unfold Qle. simpl. lia.
Defined.

(** C4. When the first attempt receives a status in 400-499 other than
    429, [_get] raises [EONETClientError] (naming the status and the URL,
    caused by the [HTTPError]) whatever the retry budget is: that one GET
    is its only effect, so there is one attempt and no sleep. A 429 is
    retried instead: the client sleeps [backoff * 1] and sends a second
    GET, whose success is returned. *)
Theorem get_4xx_not_retried (c : EONETClient) (path : string)
    (params : option (gmap string json)) (w : world) (r : Response) :
  1 <= retries c ->
  session c (gets w) (request_of c path params) = Responded r ->
  400 <= status_code r < 500 ->
  (status_code r <> 429 ->
     (exists cause,
        _get c path params w =
          (Raise (EONETClientError
                    ("EONET request failed (" +:+ str_int (status_code r) +:+ ") at "
                       +:+ url_of c path)
                    (Some (HTTPError cause (Some r)))),
           w ++ [EvGet (request_of c path params)]))
     /\ gets (_get c path params w).2 = S (gets w)
     /\ sleeps (_get c path params w).2 = sleeps w)
  /\ (status_code r = 429 ->
      forall (r2 : Response) (j : json),
        1 < retries c ->
        (0 <= backoff c)%Q ->
        session c (S (gets w)) (request_of c path params) = Responded r2 ->
        passes (status_code r2) = true ->
        body_json r2 = Some j ->
        _get c path params w =
          (Ok j, w ++ [EvGet (request_of c path params); EvSleep (backoff c * 1);
                       EvGet (request_of c path params)])).
Proof.
  intros Hn Hs Hr. unfold _get, py_range.
  rewrite seqZ_cons by lia. split.
  - intros Hne. erewrite for_attempts_abort by done. cbn [snd].
    split_and!; [by eexists| |].
    + rewrite gets_app. cbn. lia.
    + rewrite sleeps_app. cbn. by rewrite app_nil_r.
  - intros H429 r2 j Hn2 Hb Hs2 Hp Hj.
    rewrite seqZ_cons by lia.
    erewrite for_attempts_retry; [| |lia|by apply backoff_sleep_accepted].
    2:{ rewrite Hs. unfold retryable_failure. rewrite H429. done. }
    erewrite for_attempts_return; [| |done..].
    2:{ rewrite gets_app_retry. apply Hs2. }
    by rewrite <- app_assoc.
Qed.

Lemma get_4xx_not_retried_witness :
  ((exists cause,
      _get not_found_client "/events" None [] =
        (Raise (EONETClientError
                  ("EONET request failed (" +:+ str_int 404 +:+ ") at "
                     +:+ url_of not_found_client "/events")
                  (Some (HTTPError cause (Some (response 404 None))))),
         [] ++ [EvGet (request_of not_found_client "/events" None)]))
   /\ gets (_get not_found_client "/events" None []).2 = S (gets [])
   /\ sleeps (_get not_found_client "/events" None []).2 = sleeps [])
  /\ _get throttled_client "/events" None [] =
       (Ok JNull, [] ++ [EvGet (request_of throttled_client "/events" None);
                         EvSleep ((7 # 10) * 1);
                         EvGet (request_of throttled_client "/events" None)]).
Proof.
  split.
  - apply (get_4xx_not_retried not_found_client "/events" None [] (response 404 None));
      [vm_compute; discriminate|reflexivity|simpl; lia|simpl; lia].
  - refine (proj2 (get_4xx_not_retried throttled_client "/events" None []
                     (response 429 None) _ _ _) _ (response 200 (Some JNull)) JNull
                  _ _ _ _ _).
    all: try reflexivity.
    + vm_compute. discriminate.
    + simpl. lia.
    + unfold Qle. simpl. lia.
Defined.

(** C5. With [retries = 2] (and a non-negative backoff base), when both
    attempts fail retryably (for instance with status 503), [_get] raises
    [EONETClientError] whose cause is the failure of the second attempt;
    its effects are two GETs separated by one sleep of [backoff * 1]
    seconds, and no sleep follows the last attempt. *)
Theorem get_retries_exhausted (c : EONETClient) (path : string)
    (params : option (gmap string json)) (w : world) (e1 e2 : exn) :
  retries c = 2 ->
  (0 <= backoff c)%Q ->
  retryable_failure (session c (gets w) (request_of c path params)) = Some e1 ->
  retryable_failure (session c (S (gets w)) (request_of c path params)) = Some e2 ->
  _get c path params w =
    (Raise (EONETClientError ("EONET request failed after retries at " +:+ url_of c path)
              (Some e2)),
     w ++ [EvGet (request_of c path params); EvSleep (backoff c * 1);
           EvGet (request_of c path params)])
  /\ gets (_get c path params w).2 = (gets w + 2)%nat
  /\ sleeps (_get c path params w).2 = sleeps w ++ [(backoff c * 1)%Q].
Proof.
  intros Hn Hb H1 H2.
  assert (_get c path params w =
    (Raise (EONETClientError ("EONET request failed after retries at " +:+ url_of c path)
              (Some e2)),
     w ++ [EvGet (request_of c path params); EvSleep (backoff c * 1);
           EvGet (request_of c path params)])) as Hget.
  { unfold _get. rewrite Hn. change (py_range 1 (2 + 1)) with [1; 2].
    erewrite for_attempts_retry; [|done|lia|by apply backoff_sleep_accepted].
    erewrite for_attempts_exhausted; [| |lia].
    2:{ rewrite gets_app_retry. apply H2. }
    by rewrite <- app_assoc. }
  rewrite Hget. cbn [snd]. split_and!; [done| |].
  - rewrite gets_app. cbn. lia.
  - by rewrite sleeps_app.
Qed.

Lemma get_retries_exhausted_witness :
  _get unavailable_client "/events" None [] =
    (Raise (EONETClientError
              ("EONET request failed after retries at "
                 +:+ url_of unavailable_client "/events")
              (Some (HTTPError "Server error 503" (Some (response 503 None))))),
     [] ++ [EvGet (request_of unavailable_client "/events" None); EvSleep ((7 # 10) * 1);
            EvGet (request_of unavailable_client "/events" None)])
  /\ gets (_get unavailable_client "/events" None []).2 = (gets [] + 2)%nat
  /\ sleeps (_get unavailable_client "/events" None []).2 =
       sleeps [] ++ [((7 # 10) * 1)%Q].
Proof.
  apply (get_retries_exhausted unavailable_client "/events" None []
           (HTTPError "Server error 503" (Some (response 503 None)))).
  - reflexivity.
  - unfold Qle. simpl. lia.
  - vm_compute. reflexivity.
  - vm_compute. reflexivity.
Defined.

(** * Properties of the normalizer *)

Section NormalizerProperties.
Context `{Runtime}.

Lemma mapM_cons {A B} (f : A -> result B) x l :
  mapM f (x :: l) = y ← f x; k ← mapM f l; mret (y :: k).
Proof. reflexivity. Qed.

Lemma mapM_Ok {A B} (f : A -> result B) l k :
  mapM f l = Ok k <-> Forall2 (fun x y => f x = Ok y) l k.
Proof.
  split.
  - revert k. induction l as [|x l IH]; intros k; rewrite ?mapM_cons.
    + intros [= <-]. constructor.
    + destruct (f x) as [y|] eqn:Hx; [|done]. cbn.
      destruct (mapM f l) as [k'|]; [|done]. cbn. intros [= <-].
      constructor; [done|]. by apply IH.
  - induction 1 as [|x y l k Hx _ IH]; [done|].
    rewrite mapM_cons, Hx. cbn. by rewrite IH.
Qed.

Lemma mapM_is_ok {A B} (f : A -> result B) l :
  is_ok (mapM f l) = forallb (fun x => is_ok (f x)) l.
Proof.
  induction l as [|x l IH]; [done|]. rewrite mapM_cons. cbn [forallb].
  destruct (f x); [|done]. cbn. rewrite <- IH. by destruct (mapM f l).
Qed.

Lemma forallb_not_dicts (good : json -> bool) (l : list json) :
  (forall x, good x = true -> is_dict x = true) ->
  l <> [] -> Forall (fun x => is_dict x = false) l -> forallb good l = false.
Proof.
  intros Hgood Hl Hall. destruct Hall as [|x l Hx _]; [done|]. cbn.
  destruct (good x) eqn:Hg; [|done]. apply Hgood in Hg. congruence.
Qed.

Lemma chars_not_dicts s : Forall (fun x => is_dict x = false) (chars s).
Proof. induction s; by constructor. Qed.

(** The body of a loop over sub-objects fails on whatever is not a
    mapping, so the loop succeeds exactly on [seq_of good] values. *)
Lemma iterate_is_ok {A} (body : json -> result A) (good : json -> bool) (v : json) :
  (forall x, is_ok (body x) = good x) ->
  (forall x, good x = true -> is_dict x = true) ->
  is_ok (items ← py_iter (py_or v (JList [])); mapM body items) = seq_of good v.
Proof.
  intros Hbody Hgood. unfold py_or, seq_of.
  destruct (truthy v) eqn:Hv; [|done]. cbn [negb orb].
  assert (forall l, is_ok (mapM body l) = forallb good l) as Hmap.
  { intros l. rewrite mapM_is_ok. induction l; cbn; [done|]. by rewrite Hbody, IHl. }
  destruct v as [|b|n|q|s|l|d]; try done; cbn; rewrite ?Hmap; try done.
  - apply forallb_not_dicts; [done| |apply chars_not_dicts].
    destruct s; [done|]. done.
  - apply forallb_not_dicts; [done| |].
    + cbn in Hv. case_bool_decide; [done|].
      intros Hl. apply fmap_nil_inv, fmap_nil_inv, map_to_list_empty_iff in Hl. done.
    + apply Forall_fmap, Forall_true. done.
Qed.

Lemma normalize_category_is_ok x : is_ok (normalize_category x) = is_dict x.
Proof. by destruct x. Qed.

Lemma normalize_source_is_ok x : is_ok (normalize_source x) = is_dict x.
Proof. by destruct x. Qed.

Lemma normalize_geometry_is_ok x : is_ok (normalize_geometry x) = is_dict x.
Proof. by destruct x. Qed.

Lemma normalize_each_is_ok {A} (body : json -> result A) d key :
  (forall x, is_ok (body x) = is_dict x) ->
  is_ok (normalize_each body (JDict d) key) = seq_of_dicts (field d key).
Proof. intros Hbody. unfold normalize_each. cbn. by apply iterate_is_ok. Qed.

Lemma normalize_event_is_ok ev : is_ok (normalize_event ev) = well_shaped_event ev.
Proof.
  destruct ev as [| | | | | |d]; try done.
  unfold normalize_event, well_shaped_event. cbn [py_get]. cbn [mbind result_bind].
  rewrite <- (normalize_each_is_ok normalize_category) by apply normalize_category_is_ok.
  rewrite <- (normalize_each_is_ok normalize_source) by apply normalize_source_is_ok.
  rewrite <- (normalize_each_is_ok normalize_geometry) by apply normalize_geometry_is_ok.
  destruct (normalize_each normalize_category _ _); [|done].
  destruct (normalize_each normalize_source _ _); [|done].
  by destruct (normalize_each normalize_geometry _ _).
Qed.

Lemma well_shaped_event_dict ev : well_shaped_event ev = true -> is_dict ev = true.
Proof. by destruct ev. Qed.

Lemma normalize_events_is_ok utcnow payload :
  is_ok (normalize_events utcnow payload) = well_shaped_payload payload.
Proof.
  destruct payload as [| | | | | |d]; try done.
  unfold normalize_events, well_shaped_payload. cbn [py_get]. cbn [mbind result_bind].
  rewrite <- (iterate_is_ok normalize_event)
    by eauto using normalize_event_is_ok, well_shaped_event_dict.
  unfold mbind, result_bind.
  destruct (py_iter _) as [items|]; [|done].
  by destruct (mapM normalize_event items).
Qed.

(** What a successful run reads and writes. *)
Lemma normalize_event_inv ev ne :
  normalize_event ev = Ok ne ->
  exists d, ev = JDict d
    /\ ev_id ne = py_str (default (JStr "") (d !! "id"))
    /\ closed ne = _try_parse_dt (field d "closed")
    /\ status ne = (if truthy (closed ne) then "closed" else "open").
Proof.
  destruct ev as [| | | | | |d]; try done. intros Hne. exists d.
  unfold normalize_event in Hne. cbn [py_get] in Hne. unfold mbind, result_bind in Hne.
  destruct (normalize_each normalize_category _ _); [|done].
  destruct (normalize_each normalize_source _ _); [|done].
  destruct (normalize_each normalize_geometry _ _); [|done].
  injection Hne as <-. done.
Qed.

Lemma asdict_lookup ne :
  exists m, asdict ne = JDict m
    /\ m !! "id" = Some (JStr (ev_id ne))
    /\ m !! "status" = Some (JStr (status ne))
    /\ m !! "closed" = Some (closed ne).
Proof. eexists. split; [reflexivity|]. split_and!; reflexivity. Qed.

Lemma iterated_dicts v raw :
  py_iter (py_or v (JList [])) = Ok raw ->
  Forall (fun x => is_dict x = true) raw ->
  v = JList raw \/ (truthy v = false /\ raw = []).
Proof.
  unfold py_or. destruct (truthy v) eqn:Hv; [|intros [= <-]; by right].
  destruct v as [|b|n|q|s|l|d]; try done; cbn.
  - intros [= <-] Hall. destruct s as [|a s]; [done|]. by inversion Hall.
  - intros [= <-]. by left.
  - intros [= <-] Hall. cbn in Hv. case_bool_decide as Hd; [done|].
    destruct (map_to_list d) as [|[k x] l] eqn:Hl.
    + by apply map_to_list_empty_iff in Hl.
    + by inversion Hall.
Qed.

Lemma normalize_events_inv utcnow payload out :
  normalize_events utcnow payload = Ok out ->
  exists (d : gmap string json) (raw : list json) (normalized : list NormalizedEvent)
         (o : gmap string json),
    payload = JDict d
    /\ (d !! "events" = Some (JList raw)
        \/ (truthy (default (JList []) (d !! "events")) = false /\ raw = []))
    /\ Forall2 (fun ev ne => normalize_event ev = Ok ne) raw normalized
    /\ out = JDict o
    /\ o !! "events" = Some (JList (asdict <$> normalized))
    /\ o !! "count" = Some (JInt (Z.of_nat (length normalized))).
Proof.
  destruct payload as [| | | | | |d]; try done. intros Hout.
  unfold normalize_events in Hout. cbn [py_get] in Hout.
  unfold mbind, result_bind in Hout.
  destruct (py_iter _) as [raw|] eqn:Hraw; [|done].
  destruct (mapM normalize_event raw) as [normalized|] eqn:Hmap; [|done].
  apply mapM_Ok in Hmap. injection Hout as <-.
  eexists d, raw, normalized, _. split_and!; [done| |done|reflexivity..].
  assert (Forall (fun x => is_dict x = true) raw) as Hdicts.
  { clear Hraw. induction Hmap as [|ev ne raw normalized Hev _ IH]; constructor; [|done].
    by apply normalize_event_inv in Hev as (? & -> & _). }
  destruct (iterated_dicts _ _ Hraw Hdicts) as [Hl|[Hf ->]]; [|by right].
  destruct (d !! "events"); cbn in Hl; [left; by subst|].
  right. by simplify_eq.
Qed.

Lemma try_parse_dt_falsy value : truthy value = false -> _try_parse_dt value = JNull.
Proof. unfold _try_parse_dt. by intros ->. Qed.

Lemma try_parse_dt_not_str value :
  truthy value = true -> (forall s, value <> JStr s) -> _try_parse_dt value = value.
Proof.
  unfold _try_parse_dt. intros -> Hns. cbn [negb].
  destruct value; try done. by destruct (Hns s).
Qed.

Lemma try_parse_dt_str s :
  s <> "" ->
  _try_parse_dt (JStr s) =
    match fromisoformat (replace_char "Z" "+00:00" s) with
    | Some dt => JStr (isoformat dt)
    | None => JStr s
    end.
Proof.
  intros Hs. unfold _try_parse_dt. cbn [truthy]. rewrite bool_decide_false by done.
  cbn [negb py_replace_Z]. unfold mbind, result_bind, datetime_fromisoformat.
  by destruct (fromisoformat _).
Qed.

Lemma replace_char_absent a new s : has_char a s = false -> replace_char a new s = s.
Proof.
  induction s as [|b s IH]; [done|]. cbn. intros [Hb Hs]%orb_false_iff.
  by rewrite Hb, IH.
Qed.

Lemma append_assoc (s t u : string) : (s +:+ t) +:+ u = s +:+ (t +:+ u).
Proof.
  induction s as [|a s IH]; [done|].
  change (String a ((s +:+ t) +:+ u) = String a (s +:+ t +:+ u)). by rewrite IH.
Qed.

Lemma replace_char_app a new s t :
  replace_char a new (s +:+ t) = replace_char a new s +:+ replace_char a new t.
Proof.
  induction s as [|b s IH]; [done|].
  change (String b s +:+ t) with (String b (s +:+ t)). cbn [replace_char].
  rewrite IH. destruct (Ascii.eqb b a); [|done]. by rewrite append_assoc.
Qed.

(** The parsed value is [None] or truthy. *)
Lemma try_parse_dt_truthy value :
  (forall dt, isoformat dt <> "") ->
  truthy (_try_parse_dt value) = true <-> _try_parse_dt value <> JNull.
Proof.
  intros Hiso. destruct (truthy value) eqn:Hv.
  - assert (truthy (_try_parse_dt value) = true) as Ht.
    { destruct value as [|b|n|q|s|l|d];
        try (rewrite try_parse_dt_not_str; done).
      rewrite try_parse_dt_str by (by intros ->).
      destruct (fromisoformat _) as [dt|]; [|done].
      cbn. by rewrite bool_decide_false. }
    split; [|done]. intros _ Heq. by rewrite Heq in Ht.
  - rewrite try_parse_dt_falsy by done. done.
Qed.

(** C6. The timestamp rule of [_try_parse_dt], applied to an event's
    [closed] and a geometry's [date]: a falsy value (absent, [None],
    empty) gives [None]; a non-empty string that [fromisoformat] accepts
    once every ["Z"] is replaced by ["+00:00"] gives the [isoformat]
    rendering of the parsed value; a non-empty string it rejects is
    returned unchanged. In particular a string that ends in its only
    ["Z"] is parsed with the offset ["+00:00"] in its place. *)
Theorem try_parse_dt_rule (value : json) :
  (truthy value = false -> _try_parse_dt value = JNull)
  /\ (forall s dt, value = JStr s -> s <> "" ->
        fromisoformat (replace_char "Z" "+00:00" s) = Some dt ->
        _try_parse_dt value = JStr (isoformat dt))
  /\ (forall s, value = JStr s -> s <> "" ->
        fromisoformat (replace_char "Z" "+00:00" s) = None ->
        _try_parse_dt value = value)
  /\ (forall s dt, value = JStr (s +:+ "Z") -> has_char "Z" s = false ->
        fromisoformat (s +:+ "+00:00") = Some dt ->
        _try_parse_dt value = JStr (isoformat dt)).
Proof.
  split_and!.
  - apply try_parse_dt_falsy.
  - intros s dt -> Hs Hdt. by rewrite try_parse_dt_str, Hdt.
  - intros s -> Hs Hdt. by rewrite try_parse_dt_str, Hdt.
  - intros s dt -> Hs Hdt. rewrite try_parse_dt_str by (by destruct s).
    rewrite replace_char_app, (replace_char_absent _ _ s) by done.
    change (replace_char "Z" "+00:00" "Z") with "+00:00". by rewrite Hdt.
Qed.

(** C7. In the output of [normalize_events], every event has a
    ["status"] and a ["closed"] entry; the status is ["closed"] exactly
    when [closed] is not [None], and ["open"] otherwise. ([isoformat]
    never renders the empty string.) *)
Theorem status_closed_iff (utcnow : datetime) (payload out : json) :
  (forall dt, isoformat dt <> "") ->
  normalize_events utcnow payload = Ok out ->
  exists (o : gmap string json) (events : list json),
    out = JDict o /\ o !! "events" = Some (JList events)
    /\ Forall (fun e =>
         exists (m : gmap string json) (status : string) (closed : json),
           e = JDict m /\ m !! "status" = Some (JStr status)
           /\ m !! "closed" = Some closed
           /\ (status = "closed" <-> closed <> JNull)
           /\ (status = "closed" \/ status = "open")) events.
Proof.
  intros Hiso (d & raw & normalized & o & -> & _ & Hall & -> & Hev & _)%normalize_events_inv.
  exists o, (asdict <$> normalized). split_and!; [done..|].
  apply Forall_fmap, Forall_forall. intros ne Hin.
  apply list_elem_of_lookup in Hin as [i Hi].
  destruct (Forall2_lookup_r _ _ _ _ _ Hall Hi) as (ev & _ & Hne).
  apply normalize_event_inv in Hne as (m & -> & _ & Hcl & Hst).
  destruct (asdict_lookup ne) as (a & Ha & _ & Hs & Hc).
  exists a, (status ne), (closed ne). split_and!; [done..| |].
  - rewrite Hst, Hcl, <- try_parse_dt_truthy by done.
    destruct (truthy (_try_parse_dt (field m "closed"))); [done|].
    split; intros Heq; discriminate Heq.
  - rewrite Hst. destruct (truthy _); auto.
Qed.

(** C8. When [normalize_events] succeeds, the raw events are the list
    under ["events"] (or none, when that value is absent or falsy), the
    output's ["events"] holds their normalizations one for one and in the
    same order, and ["count"] is the length of that list. *)
Theorem count_and_order (utcnow : datetime) (payload out : json) :
  normalize_events utcnow payload = Ok out ->
  exists (d o : gmap string json) (raw events : list json),
    payload = JDict d /\ out = JDict o
    /\ (d !! "events" = Some (JList raw)
        \/ (truthy (default (JList []) (d !! "events")) = false /\ raw = []))
    /\ o !! "events" = Some (JList events)
    /\ o !! "count" = Some (JInt (Z.of_nat (length events)))
    /\ Forall2 (fun ev e => exists ne, normalize_event ev = Ok ne /\ e = asdict ne)
         raw events.
Proof.
  intros (d & raw & normalized & o & -> & Hraw & Hall & -> & Hev & Hcount)%normalize_events_inv.
  exists d, o, raw, (asdict <$> normalized). split_and!; try done.
  - by rewrite length_fmap.
  - apply Forall2_fmap_r. eapply Forall2_impl; [done|]. cbn. eauto.
Qed.

(** The [i]-th raw event and the [i]-th normalized event. *)
Lemma normalize_events_lookup utcnow d raw i ev out :
  d !! "events" = Some (JList raw) ->
  raw !! i = Some ev ->
  normalize_events utcnow (JDict d) = Ok out ->
  exists (o : gmap string json) (events : list json) (ne : NormalizedEvent),
    out = JDict o /\ o !! "events" = Some (JList events)
    /\ events !! i = Some (asdict ne) /\ normalize_event ev = Ok ne.
Proof.
  intros Hd Hi (d' & raw' & normalized & o & [= <-] & Hraw & Hall & -> & Hev & _)%normalize_events_inv.
  assert (raw' = raw) as ->.
  { destruct Hraw as [Hraw|[Hf ->]]; [congruence|].
    rewrite Hd in Hf. destruct raw; [done|]. done. }
  destruct (Forall2_lookup_l _ _ _ _ _ Hall Hi) as (ne & Hne & Hev').
  exists o, (asdict <$> normalized), ne. split_and!; try done.
  by rewrite list_lookup_fmap, Hne.
Qed.


(** C9. The ["id"] of a normalized event is [str] of the raw value
    when the key is present, and the empty string only when the key is
    absent: a raw ["id"] bound to [null] gives the string ["None"]. *)
Theorem null_id_stringified (utcnow : datetime) (d ev : gmap string json)
    (raw : list json) (i : nat) (out : json) :
  d !! "events" = Some (JList raw) ->
  raw !! i = Some (JDict ev) ->
  normalize_events utcnow (JDict d) = Ok out ->
  exists (o m : gmap string json) (events : list json),
    out = JDict o /\ o !! "events" = Some (JList events)
    /\ events !! i = Some (JDict m)
    /\ m !! "id" = Some (JStr (py_str (default (JStr "") (ev !! "id"))))
    /\ (ev !! "id" = Some JNull -> m !! "id" = Some (JStr "None"))
    /\ (ev !! "id" = None -> m !! "id" = Some (JStr "")).
Proof.
  intros Hd Hi Hout.
  destruct (normalize_events_lookup _ _ _ _ _ _ Hd Hi Hout)
    as (o & events & ne & -> & Hev & Hne & Hok).
  apply normalize_event_inv in Hok as (ev' & [= <-] & Hid & _).
  destruct (asdict_lookup ne) as (m & Hm & Hmid & _).
  exists o, m, events. rewrite <- Hm, Hmid, Hid. split_and!; try done.
  - by intros ->.
  - by intros ->.
Qed.


End NormalizerProperties.

(** * The properties on closed examples *)

Example sample_normalized :
  @normalize_events RefRuntime.runtime sample_now sample_payload = Ok sample_output.
Proof. vm_compute. reflexivity. Qed.

Example odd_normalized :
  @normalize_events RefRuntime.runtime sample_now (JDict odd_payload) = Ok odd_output.
Proof. vm_compute. reflexivity. Qed.

Lemma append_nonempty_r (s t : string) : t <> "" -> s +:+ t <> "".
Proof.
  intros Ht. destruct s as [|a s]; [done|].
  change (String a (s +:+ t) <> ""). done.
Qed.

Lemma ref_isoformat_nonempty (dt : RefRuntime.datetime) : RefRuntime.isoformat dt <> "".
Proof. unfold RefRuntime.isoformat. by apply append_nonempty_r. Qed.


Lemma try_parse_dt_rule_witness :
  @_try_parse_dt RefRuntime.runtime JNull = JNull
  /\ @_try_parse_dt RefRuntime.runtime (JStr "") = JNull
  /\ @_try_parse_dt RefRuntime.runtime (JStr "2024-01-01T00:00:00Z") =
       JStr "2024-01-01T00:00:00+00:00"
  /\ @_try_parse_dt RefRuntime.runtime (JStr "not-a-date") = JStr "not-a-date".
Proof.
  split_and!.
  - by apply (@try_parse_dt_rule RefRuntime.runtime JNull).
  - by apply (@try_parse_dt_rule RefRuntime.runtime (JStr "")).
  - refine (proj2 (proj2 (proj2
              (@try_parse_dt_rule RefRuntime.runtime (JStr "2024-01-01T00:00:00Z"))))
              "2024-01-01T00:00:00" (RefRuntime.Build_datetime 2024 1 1 0 0 0 0 (Some 0))
              _ _ _); reflexivity.
  - refine (proj1 (proj2 (proj2
              (@try_parse_dt_rule RefRuntime.runtime (JStr "not-a-date"))))
              "not-a-date" _ _ _); [reflexivity|discriminate|reflexivity].
Defined.

Lemma status_closed_iff_witness :
  exists (o : gmap string json) (events : list json),
    odd_output = JDict o /\ o !! "events" = Some (JList events)
    /\ Forall (fun e =>
         exists (m : gmap string json) (status : string) (closed : json),
           e = JDict m /\ m !! "status" = Some (JStr status)
           /\ m !! "closed" = Some closed
           /\ (status = "closed" <-> closed <> JNull)
           /\ (status = "closed" \/ status = "open")) events.
Proof.
  apply (@status_closed_iff RefRuntime.runtime sample_now (JDict odd_payload) odd_output).
  - apply ref_isoformat_nonempty.
  - vm_compute. reflexivity.
Defined.

Lemma count_and_order_witness :
  exists (d o : gmap string json) (raw events : list json),
    JDict odd_payload = JDict d /\ odd_output = JDict o
    /\ (d !! "events" = Some (JList raw)
        \/ (truthy (default (JList []) (d !! "events")) = false /\ raw = []))
    /\ o !! "events" = Some (JList events)
    /\ o !! "count" = Some (JInt (Z.of_nat (length events)))
    /\ Forall2 (fun ev e =>
         exists ne, @normalize_event RefRuntime.runtime ev = Ok ne /\ e = asdict ne)
         raw events.
Proof.
  apply (@count_and_order RefRuntime.runtime sample_now (JDict odd_payload) odd_output).
  vm_compute. reflexivity.
Defined.

Lemma null_id_stringified_witness :
  exists (o m : gmap string json) (events : list json),
    odd_output = JDict o /\ o !! "events" = Some (JList events)
    /\ events !! 0%nat = Some (JDict m)
    /\ m !! "id" =
         Some (JStr (@py_str RefRuntime.runtime
                       (default (JStr "") (({[ "id" := JNull ]} : gmap string json) !! "id"))))
    /\ (({[ "id" := JNull ]} : gmap string json) !! "id" = Some JNull ->
        m !! "id" = Some (JStr "None"))
    /\ (({[ "id" := JNull ]} : gmap string json) !! "id" = None ->
        m !! "id" = Some (JStr "")).
Proof.
  apply (@null_id_stringified RefRuntime.runtime sample_now odd_payload
           {[ "id" := JNull ]} odd_events 0).
  - reflexivity.
  - reflexivity.
  - vm_compute. reflexivity.
Defined.


(** * More properties of the client *)

Section RetryLoop.

Lemma gets_backoffs req b first m : gets (backoffs req b first m) = m.
Proof.
  revert first. induction m as [|m IH]; intros first; [done|].
  cbn [backoffs]. change (gets (?a :: ?b :: ?l)) with (gets ([a; b] ++ l)).
  rewrite gets_app, IH. done.
Qed.

Lemma sleeps_backoffs req b first m :
  sleeps (backoffs req b first m) = (fun i => (b * inject_Z i)%Q) <$> seqZ first (Z.of_nat m).
Proof.
  revert first. induction m as [|m IH]; intros first; [done|].
  rewrite seqZ_cons by lia. cbn [backoffs]. cbn. f_equal.
  replace (Z.pred (Z.of_nat (S m))) with (Z.of_nat m) by lia.
  apply IH.
Qed.

Lemma gets_attempts_trace req b first k : gets (attempts_trace req b first k) = k.
Proof.
  destruct k as [|m]; [done|]. cbn [attempts_trace].
  rewrite gets_app, gets_backoffs. cbn. lia.
Qed.

Lemma sleeps_attempts_trace req b first k :
  sleeps (attempts_trace req b first k) =
    (fun i => (b * inject_Z i)%Q) <$> seqZ first (Z.of_nat k - 1).
Proof.
  destruct k as [|m]; [done|]. cbn [attempts_trace].
  rewrite sleeps_app, sleeps_backoffs. cbn. rewrite app_nil_r.
  by replace (Z.of_nat (S m) - 1) with (Z.of_nat m) by lia.
Qed.

Variable c : EONETClient.
Variable url : string.
Variable req : Request.

(** [m] retryable failures in a row: the loop goes through them, sleeping
    after each. *)
Lemma for_attempts_backoffs (m : nat) (fails : nat -> exn) :
  (0 <= backoff c)%Q ->
  forall (first : Z) (rest : list Z) (last_err : option exn) (w : world),
    1 <= first ->
    first + Z.of_nat m <= retries c ->
    (forall i, (i < m)%nat ->
       retryable_failure (session c (gets w + i)%nat req) = Some (fails i)) ->
    for_attempts c url req (seqZ first (Z.of_nat m) ++ rest) last_err w =
      for_attempts c url req rest
        (match m with O => last_err | S m' => Some (fails m') end)
        (w ++ backoffs req (backoff c) first m).
Proof.
  intros Hb. revert fails. induction m as [|m IH]; intros fails first rest last_err w Hf Hn Hfail.
  { cbn. by rewrite app_nil_r. }
  rewrite seqZ_cons by lia. cbn [app].
  erewrite for_attempts_retry; [| |lia|apply backoff_sleep_accepted; [done|lia]].
  2:{ specialize (Hfail O). rewrite Nat.add_0_r in Hfail. apply Hfail. lia. }
  replace (Z.pred (Z.of_nat (S m))) with (Z.of_nat m) by lia.
  rewrite (IH (fun i => fails (S i))); [|lia|lia|].
  - cbn [backoffs]. rewrite <- app_assoc. cbn [app].
    replace (Z.succ first) with (first + 1) by lia.
    by destruct m.
  - intros i Hi. rewrite gets_app_retry.
    replace (S (gets w) + i)%nat with (gets w + S i)%nat by lia.
    apply Hfail. lia.
Qed.

End RetryLoop.

Lemma py_range_split (n : Z) (m : nat) :
  Z.of_nat m < n ->
  py_range 1 (n + 1) =
    seqZ 1 (Z.of_nat m) ++ (1 + Z.of_nat m) :: seqZ (2 + Z.of_nat m) (n - Z.of_nat m - 1).
Proof.
  intros Hm. unfold py_range.
  replace (n + 1 - 1) with (Z.of_nat m + (n - Z.of_nat m)) by lia.
  rewrite seqZ_app by lia. f_equal.
  rewrite seqZ_cons by lia. f_equal. f_equal; lia.
Qed.

(** X1. Whatever the retry budget [n >= 1], when every attempt fails
    retryably (and the backoff base is non-negative), [_get] raises
    [EONETClientError] caused by the last failure after exactly [n] GETs,
    with a sleep of [backoff * i] after the [i]-th attempt for
    [i = 1 .. n-1] and none after the last. *)
Theorem get_exhausts_any_budget (c : EONETClient) (path : string)
    (params : option (gmap string json)) (w : world) (n : nat) (fails : nat -> exn) :
  retries c = Z.of_nat (S n) ->
  (0 <= backoff c)%Q ->
  (forall i, (i <= n)%nat ->
     retryable_failure (session c (gets w + i)%nat (request_of c path params))
       = Some (fails i)) ->
  _get c path params w =
    (Raise (EONETClientError ("EONET request failed after retries at " +:+ url_of c path)
              (Some (fails n))),
     w ++ attempts_trace (request_of c path params) (backoff c) 1 (S n))
  /\ gets (_get c path params w).2 = (gets w + S n)%nat
  /\ sleeps (_get c path params w).2 =
       sleeps w ++ ((fun i => (backoff c * inject_Z i)%Q) <$> seqZ 1 (Z.of_nat n)).
Proof.
  intros Hn Hb Hfail.
  assert (_get c path params w =
    (Raise (EONETClientError ("EONET request failed after retries at " +:+ url_of c path)
              (Some (fails n))),
     w ++ attempts_trace (request_of c path params) (backoff c) 1 (S n))) as Hget.
  { unfold _get. rewrite (py_range_split _ n) by lia.
    rewrite (for_attempts_backoffs c _ _ n fails); [|done|lia|lia|intros; apply Hfail; lia].
    erewrite for_attempts_exhausted; [| |lia].
    2:{ rewrite gets_app, gets_backoffs. apply Hfail. lia. }
    cbn [attempts_trace]. by rewrite <- app_assoc. }
  rewrite Hget. cbn [snd]. split_and!; [done| |].
  - by rewrite gets_app, gets_attempts_trace.
  - rewrite sleeps_app, sleeps_attempts_trace. do 3 f_equal. lia.
Qed.

(** X2. After [m] retryable failures, with budget left, an attempt that
    receives a passing status and a JSON body [j] ends the call: [_get]
    returns [j] after [m + 1] GETs and the [m] sleeps
    [backoff * 1 .. backoff * m]. *)
Theorem get_returns_first_success (c : EONETClient) (path : string)
    (params : option (gmap string json)) (w : world) (m : nat) (fails : nat -> exn)
    (r : Response) (j : json) :
  Z.of_nat m < retries c ->
  (0 <= backoff c)%Q ->
  (forall i, (i < m)%nat ->
     retryable_failure (session c (gets w + i)%nat (request_of c path params))
       = Some (fails i)) ->
  session c (gets w + m)%nat (request_of c path params) = Responded r ->
  passes (status_code r) = true ->
  body_json r = Some j ->
  _get c path params w =
    (Ok j, w ++ attempts_trace (request_of c path params) (backoff c) 1 (S m))
  /\ sleeps (_get c path params w).2 =
       sleeps w ++ ((fun i => (backoff c * inject_Z i)%Q) <$> seqZ 1 (Z.of_nat m)).
Proof.
  intros Hn Hb Hfail Hs Hp Hj.
  assert (_get c path params w =
    (Ok j, w ++ attempts_trace (request_of c path params) (backoff c) 1 (S m))) as Hget.
  { unfold _get. rewrite (py_range_split _ m) by lia.
    rewrite (for_attempts_backoffs c _ _ m fails); [|done|lia|lia|done].
    erewrite for_attempts_return; [| |done..].
    2:{ rewrite gets_app, gets_backoffs. apply Hs. }
    cbn [attempts_trace]. by rewrite <- app_assoc. }
  rewrite Hget. cbn [snd].
  split; [done|]. rewrite sleeps_app, sleeps_attempts_trace. do 3 f_equal. lia.
Qed.

(** X3. After [m] retryable failures, with budget left, an attempt that
    receives a status in 400-499 other than 429 ends the call at once:
    [_get] raises [EONETClientError] naming that status, after [m + 1]
    GETs, and the rest of the budget is not used. *)
Theorem get_aborts_on_client_error (c : EONETClient) (path : string)
    (params : option (gmap string json)) (w : world) (m : nat) (fails : nat -> exn)
    (r : Response) :
  Z.of_nat m < retries c ->
  (0 <= backoff c)%Q ->
  (forall i, (i < m)%nat ->
     retryable_failure (session c (gets w + i)%nat (request_of c path params))
       = Some (fails i)) ->
  session c (gets w + m)%nat (request_of c path params) = Responded r ->
  400 <= status_code r < 500 ->
  status_code r <> 429 ->
  (exists cause,
     _get c path params w =
       (Raise (EONETClientError
                 ("EONET request failed (" +:+ str_int (status_code r) +:+ ") at "
                    +:+ url_of c path)
                 (Some (HTTPError cause (Some r)))),
        w ++ attempts_trace (request_of c path params) (backoff c) 1 (S m)))
  /\ gets (_get c path params w).2 = (gets w + S m)%nat.
Proof.
  intros Hn Hb Hfail Hs Hr Hne. unfold _get.
  rewrite (py_range_split _ m) by lia.
  rewrite (for_attempts_backoffs c _ _ m fails); [|done|lia|lia|done].
  erewrite for_attempts_abort; [| |done..].
  2:{ rewrite gets_app, gets_backoffs. apply Hs. }
  cbn [attempts_trace snd]. rewrite <- app_assoc. split; [by eexists|].
  rewrite gets_app, gets_app, gets_backoffs. cbn. lia.
Qed.

(** X4. With a retry budget of zero or less the loop body never runs:
    [_get] sends no request, does not sleep, and raises the
    [EONETClientError] of the statement after the loop, without a cause. *)
Theorem get_without_budget (c : EONETClient) (path : string)
    (params : option (gmap string json)) (w : world) :
  retries c <= 0 ->
  _get c path params w =
    (Raise (EONETClientError ("EONET request failed unexpectedly at " +:+ url_of c path)
              None), w).
Proof.
  intros Hn. unfold _get, py_range.
  replace (seqZ 1 (retries c + 1 - 1)) with (@nil Z); [done|].
  symmetry. apply seqZ_nil. lia.
Qed.

Section LoopEffects.
Variable c : EONETClient.
Variable url : string.
Variable req : Request.

Lemma try_block_effect w : (try_block c req w).2 = w ++ [EvGet req].
Proof.
  unfold try_block, session_get, mbind, M_bind, raise_for_status, resp_json.
  destruct (session c (gets w) req) as [r|e]; [|done].
  destruct ((500 <=? status_code r) && (status_code r <? 600)); [done|].
  destruct ((400 <=? status_code r) && (status_code r <? 500)); [done|].
  cbn. by destruct (body_json r).
Qed.

Lemma except_block_effect attempt e w res w' :
  except_block c url attempt e w = (res, w') ->
  (res = Ok (Continue e) /\ attempt < retries c
   /\ w' = w ++ [EvSleep (backoff c * inject_Z attempt)])
  \/ ((exists e', res = Raise e') /\ w' = w).
Proof.
  unfold except_block. destruct (non_retryable_status e).
  { intros [= <- <-]. right. eauto. }
  destruct (attempt <? retries c) eqn:Hlt; [|intros [= <- <-]; right; eauto].
  unfold mbind, M_bind, time_sleep.
  destruct (Qle_bool 0 _); intros [= <- <-]; [left|right; eauto].
  split_and!; [done|lia|done].
Qed.

(** The effects of the loop over the attempts [first .. retries]. *)
Lemma for_attempts_effects (len : nat) :
  forall (first : Z) (last_err : option exn) (w : world),
    first + Z.of_nat len = retries c + 1 ->
    exists k : nat,
      (k <= len)%nat /\ (len <> O -> k <> O)
      /\ (for_attempts c url req (seqZ first (Z.of_nat len)) last_err w).2 =
           w ++ attempts_trace req (backoff c) first k.
Proof.
  induction len as [|len IH]; intros first last_err w Hlen.
  { exists O. cbn. by rewrite app_nil_r. }
  rewrite seqZ_cons by lia.
  replace (Z.pred (Z.of_nat (S len))) with (Z.of_nat len) by lia.
  cbn [for_attempts]. unfold mbind at 1, M_bind at 1, try_except.
  pose proof (try_block_effect w) as Hw.
  destruct (try_block c req w) as [[ctl|e] w1] eqn:Hb; cbn [snd] in Hw; subst w1.
  - apply try_block_returns in Hb as (r & j & _ & _ & _ & -> & _).
    exists 1%nat. split_and!; [lia|done|done].
  - destruct (caught e); [|exists 1%nat; split_and!; [lia|done|done]].
    destruct (except_block c url first e (w ++ [EvGet req])) as [res w2] eqn:Hx.
    apply except_block_effect in Hx as [(-> & Hlt & ->)|((e' & ->) & ->)];
      [|exists 1%nat; split_and!; [lia|done|done]].
    destruct (IH (Z.succ first) (Some e)
                ((w ++ [EvGet req]) ++ [EvSleep (backoff c * inject_Z first)]))
      as (k & Hk & Hk0 & Htr); [lia|].
    exists (S k). split_and!; [lia|done|]. rewrite Htr.
    destruct k as [|m]; [destruct Hk0; [lia|done]|].
    cbn [attempts_trace backoffs]. rewrite <- !app_assoc. cbn [app].
    by replace (Z.succ first) with (first + 1) by lia.
Qed.

End LoopEffects.

(** X5. Whatever the session does, the effects of [_get] are those of
    [k] attempts for some [k] within the retry budget (at least one when
    the budget is positive): [k] GETs of the same request, separated by
    the sleeps [backoff * 1 .. backoff * (k - 1)], after what happened
    before the call. So [_get] never sends more than [retries] requests
    and never sleeps after its last attempt. *)
Theorem get_effects_within_budget (c : EONETClient) (path : string)
    (params : option (gmap string json)) (w : world) :
  exists k : nat,
    Z.of_nat k <= Z.max 0 (retries c)
    /\ (0 < retries c -> k <> O)
    /\ (_get c path params w).2 =
         w ++ attempts_trace (request_of c path params) (backoff c) 1 k
    /\ gets (_get c path params w).2 = (gets w + k)%nat
    /\ length (sleeps (_get c path params w).2) = (length (sleeps w) + (k - 1))%nat.
Proof.
  assert (exists k : nat,
    Z.of_nat k <= Z.max 0 (retries c) /\ (0 < retries c -> k <> O)
    /\ (_get c path params w).2 =
         w ++ attempts_trace (request_of c path params) (backoff c) 1 k)
    as (k & Hk & Hk0 & Htr).
  { unfold _get, py_range. destruct (decide (0 <= retries c)) as [Hn|Hn].
    - destruct (for_attempts_effects c (url_of c path) (request_of c path params)
                  (Z.to_nat (retries c)) 1 None w) as (k & Hk & Hk0 & Htr); [lia|].
      exists k. rewrite Z2Nat.id in Htr by done.
      replace (retries c + 1 - 1) with (retries c) by lia.
      split_and!; [lia| |done]. intros Hpos. apply Hk0. lia.
    - exists O. rewrite seqZ_nil by lia. cbn. rewrite app_nil_r.
      split_and!; [lia|lia|done]. }
  exists k. rewrite Htr. split_and!; [done..| |].
  - by rewrite gets_app, gets_attempts_trace.
  - rewrite sleeps_app, length_app, sleeps_attempts_trace, length_fmap, length_seqZ. lia.
Qed.

Lemma for_attempts_returns c url req attempts last_err w j w' :
  for_attempts c url req attempts last_err w = (Ok j, w') ->
  exists (w0 : world) (r : Response),
    w' = w0 ++ [EvGet req]
    /\ session c (gets w0) req = Responded r
    /\ passes (status_code r) = true /\ body_json r = Some j.
Proof.
  revert last_err w. induction attempts as [|attempt rest IH]; intros last_err w; [done|].
  cbn [for_attempts]. unfold mbind at 1, M_bind at 1, try_except.
  destruct (try_block c req w) as [[ctl|e] w1] eqn:Hb.
  - apply try_block_returns in Hb as (r & j' & Hs & Hp & Hj & -> & ->).
    intros [= <- <-]. by exists w, r.
  - destruct (caught e); [|done].
    destruct (except_block c url attempt e w1) as [[[j'|e']|e'] w2] eqn:Hx; [| |done].
    + apply except_block_effect in Hx as [([=] & _)|([e'' [=]] & _)].
    + apply IH.
Qed.

(** X6. [_get] returns only JSON it received with a passing status: when
    it returns [j], its last effect is a GET that was answered with a
    status outside 400-599 and a body that parses to [j]. It never
    returns the body of an error response. *)
Theorem get_returns_passing_json (c : EONETClient) (path : string)
    (params : option (gmap string json)) (w w' : world) (j : json) :
  _get c path params w = (Ok j, w') ->
  exists (w0 : world) (r : Response),
    w' = w0 ++ [EvGet (request_of c path params)]
    /\ session c (gets w0) (request_of c path params) = Responded r
    /\ passes (status_code r) = true /\ body_json r = Some j.
Proof. apply for_attempts_returns. Qed.

Lemma lookup_set_if_given key v params k :
  set_if_given key v params !! k =
    if decide (key = k) then
      match v with Some x => Some x | None => params !! k end
    else params !! k.
Proof.
  unfold set_if_given. destruct v as [x|]; [|by case_decide].
  by rewrite lookup_insert.
Qed.

Lemma dom_set_if_given key v params (keys : gset string) :
  key ∈ keys -> dom params ⊆ keys -> dom (set_if_given key v params) ⊆ keys.
Proof.
  intros Hkey Hdom. unfold set_if_given. destruct v; [|done].
  rewrite dom_insert_L. apply union_least; [|done]. by apply singleton_subseteq_l.
Qed.

Lemma get_events_params (c : EONETClient) (category source status : option string)
    (days limit : option Z) :
  get_events c category source status days limit =
    _get c "/events"
      (Some (set_if_given "limit" (JInt <$> limit)
               (set_if_given "days" (JInt <$> days)
                  (set_if_given "status" (JStr <$> given status)
                     (set_if_given "source" (JStr <$> given source)
                        (set_if_given "category" (JStr <$> given category) ∅)))))).
Proof.
  unfold get_events, given.
  destruct category as [cat|], source as [src|], status as [st|],
    days as [d|], limit as [l|]; repeat case_bool_decide; reflexivity.
Qed.

(** X7. [get_events] queries [/events] with exactly the filters it is
    given: a text filter is sent unless it is absent or empty, [days] and
    [limit] are sent whenever they are not [None] (zero included), and no
    other parameter is ever sent. *)
Theorem get_events_query (c : EONETClient) (category source status : option string)
    (days limit : option Z) :
  exists p : gmap string json,
    get_events c category source status days limit = _get c "/events" (Some p)
    /\ req_params (request_of c "/events" (Some p)) = p
    /\ p !! "category" = JStr <$> given category
    /\ p !! "source" = JStr <$> given source
    /\ p !! "status" = JStr <$> given status
    /\ p !! "days" = JInt <$> days
    /\ p !! "limit" = JInt <$> limit
    /\ dom p ⊆ {[ "category"; "source"; "status"; "days"; "limit" ]}.
Proof.
  eexists. split; [apply get_events_params|].
  split; [cbn; by case_bool_decide|].
  split_and!.
  1-5: rewrite !lookup_set_if_given; repeat (case_decide; [done|]);
       repeat (case_decide; [|done]); rewrite ?lookup_empty;
       by repeat case_match.
  repeat (apply dom_set_if_given;
            [rewrite !elem_of_union, !elem_of_singleton; tauto|]).
  rewrite dom_empty_L. apply empty_subseteq.
Qed.

Lemma lstrip_slash_slashes n s : lstrip_slash (slashes n +:+ s) = lstrip_slash s.
Proof. induction n as [|n IH]; [done|]. exact IH. Qed.

Lemma lstrip_slash_spec s :
  starts_with_slash (lstrip_slash s) = false
  /\ exists n, s = slashes n +:+ lstrip_slash s.
Proof.
  induction s as [|a s [IH1 [n IH2]]].
  { split; [done|]. by exists O. }
  cbn [lstrip_slash]. destruct (Ascii.eqb a "/") eqn:Ha.
  - apply Ascii.eqb_eq in Ha as ->. split; [done|].
    exists (S n). change (String "/" s = String "/" (slashes n +:+ lstrip_slash s)).
    by rewrite <- IH2.
  - split; [done|]. by exists O.
Qed.

Lemma rstrip_slash_slashes n : rstrip_slash (slashes n) = "".
Proof.
  induction n as [|n IH]; [done|]. cbn [slashes rstrip_slash]. by rewrite IH.
Qed.

Lemma rstrip_slash_app_slashes s n : rstrip_slash (s +:+ slashes n) = rstrip_slash s.
Proof.
  induction s as [|a s IH]; [apply rstrip_slash_slashes|].
  change (String a s +:+ slashes n) with (String a (s +:+ slashes n)).
  cbn [rstrip_slash]. by rewrite IH.
Qed.

Lemma rstrip_slash_spec s :
  ends_with_slash (rstrip_slash s) = false
  /\ exists n, s = rstrip_slash s +:+ slashes n.
Proof.
  induction s as [|a s [IH1 [n IH2]]].
  { split; [done|]. by exists O. }
  cbn [rstrip_slash].
  destruct (Ascii.eqb a "/") eqn:Ha; cbn [andb]; [case_bool_decide as Hr|].
  - apply Ascii.eqb_eq in Ha as ->. split; [done|].
    exists (S n). rewrite Hr in IH2. cbn in IH2. by rewrite IH2.
  - split.
    + cbn [ends_with_slash]. by destruct (rstrip_slash s).
    + exists n. change (String a s = String a (rstrip_slash s +:+ slashes n)).
      by rewrite <- IH2.
  - split.
    + cbn [ends_with_slash]. by destruct (rstrip_slash s).
    + exists n. change (String a s = String a (rstrip_slash s +:+ slashes n)).
      by rewrite <- IH2.
Qed.


(** * More properties of the normalizer *)

Section NormalizerMore.
Context `{Runtime}.

Lemma asdict_category_schema c : category_schema (asdict_category c).
Proof.
  split; eexists; [split; [reflexivity|]|eexists; split; reflexivity].
  reflexivity.
Qed.

Lemma asdict_source_schema s : source_schema (asdict_source s).
Proof.
  split; eexists; [split; [reflexivity|]|eexists; split; reflexivity].
  reflexivity.
Qed.

Lemma asdict_geometry_schema g : geometry_schema (asdict_geometry g).
Proof. eexists. split; reflexivity. Qed.

Lemma asdict_event_schema e : event_schema (asdict e).
Proof.
  unfold event_schema. split_and!.
  - eexists. split; reflexivity.
  - eexists _, _. split; reflexivity.
  - eexists _, _. split; reflexivity.
  - eexists _, _. split_and!; [reflexivity..|].
    apply Forall_fmap, Forall_true, asdict_category_schema.
  - eexists _, _. split_and!; [reflexivity..|].
    apply Forall_fmap, Forall_true, asdict_source_schema.
  - eexists _, _. split_and!; [reflexivity..|].
    apply Forall_fmap, Forall_true, asdict_geometry_schema.
Qed.

(** The output of a successful run, written out. *)
Lemma normalize_events_output utcnow payload out :
  normalize_events utcnow payload = Ok out ->
  exists (d : gmap string json) (normalized : list NormalizedEvent),
    payload = JDict d
    /\ out = JDict {[ "source" := JStr "NASA_EONET_V3";
                      "title" := field d "title";
                      "generated_at" := JStr (isoformat utcnow +:+ "Z");
                      "count" := JInt (Z.of_nat (length normalized));
                      "events" := JList (asdict <$> normalized) ]}.
Proof.
  destruct payload as [| | | | | |d]; try done. intros Hout.
  unfold normalize_events in Hout. cbn [py_get] in Hout.
  unfold mbind, result_bind in Hout.
  destruct (py_iter _) as [raw|]; [|done].
  destruct (mapM normalize_event raw) as [normalized|]; [|done].
  injection Hout as <-. by exists d, normalized.
Qed.

Lemma normalize_events_schema utcnow payload out :
  normalize_events utcnow payload = Ok out -> response_schema out.
Proof.
  intros (d & normalized & -> & ->)%normalize_events_output.
  unfold response_schema. split_and!.
  - eexists. split; reflexivity.
  - eexists _, _. split; reflexivity.
  - eexists _, _. split; reflexivity.
  - eexists _, _. split_and!; [reflexivity..|].
    apply Forall_fmap, Forall_true, asdict_event_schema.
Qed.

(** X9. Whatever the payload holds, a successful [normalize_events]
    returns the normalized schema: a mapping with exactly the keys
    [source], [title], [generated_at], [count] and [events]; every event
    has exactly the nine keys of [NormalizedEvent], with a string [id] and
    [status]; every category, source and geometry entry has exactly the
    keys of its dataclass. Keys of the raw payload that the normalizer
    does not know never reach the output. *)
Theorem normalized_output_schema (utcnow : datetime) (payload out : json) :
  normalize_events utcnow payload = Ok out -> response_schema out.
Proof. apply normalize_events_schema. Qed.

(** X10. A payload that is a mapping without events (the key is absent,
    [null], or any other falsy value) is normalized to an empty list of
    events and a count of zero. *)
Theorem no_events_normalized (utcnow : datetime) (d : gmap string json) :
  truthy (default (JList []) (d !! "events")) = false ->
  normalize_events utcnow (JDict d) =
    Ok (JDict {[ "source" := JStr "NASA_EONET_V3";
                 "title" := field d "title";
                 "generated_at" := JStr (isoformat utcnow +:+ "Z");
                 "count" := JInt 0;
                 "events" := JList [] ]}).
Proof.
  intros Hf. unfold normalize_events. cbn [py_get]. unfold mbind, result_bind.
  unfold py_or. by rewrite Hf.
Qed.

End NormalizerMore.

Section NormalizerFailures.
Context `{Runtime}.

Lemma py_get_raises o key dflt e : py_get o key dflt = Raise e -> is_shape_error e = true.
Proof. destruct o; by intros [= <-]. Qed.

Lemma py_iter_raises v e : py_iter v = Raise e -> is_shape_error e = true.
Proof. destruct v; by intros [= <-]. Qed.

Lemma mapM_raises {A B} (f : A -> result B) l e :
  mapM f l = Raise e -> exists x, x ∈ l /\ f x = Raise e.
Proof.
  induction l as [|x l IH]; [done|]. rewrite mapM_cons.
  destruct (f x) as [y|e'] eqn:Hx; cbn.
  - destruct (mapM f l) as [k|e'']; [done|]. intros [= <-].
    destruct IH as (x' & Hin & Hx'); [done|]. exists x'. split; [by right|done].
  - intros [= <-]. exists x. split; [by left|done].
Qed.

Lemma normalize_each_raises {A} (body : json -> result A) ev key e :
  (forall x e', body x = Raise e' -> is_shape_error e' = true) ->
  normalize_each body ev key = Raise e -> is_shape_error e = true.
Proof.
  intros Hbody. unfold normalize_each, mbind, result_bind.
  destruct (py_get ev key JNull) as [v|e'] eqn:Hv;
    [|intros [= <-]; by eapply py_get_raises].
  destruct (py_iter _) as [items|e'] eqn:Hi;
    [|intros [= <-]; by eapply py_iter_raises].
  intros (x & _ & Hx)%mapM_raises. by eapply Hbody.
Qed.

Lemma normalize_category_raises x e :
  normalize_category x = Raise e -> is_shape_error e = true.
Proof. destruct x; by intros [= <-]. Qed.

Lemma normalize_source_raises x e :
  normalize_source x = Raise e -> is_shape_error e = true.
Proof. destruct x; by intros [= <-]. Qed.

Lemma normalize_geometry_raises x e :
  normalize_geometry x = Raise e -> is_shape_error e = true.
Proof. destruct x; by intros [= <-]. Qed.

Lemma normalize_event_raises ev e :
  normalize_event ev = Raise e -> is_shape_error e = true.
Proof.
  destruct ev as [| | | | | |d]; try by intros [= <-].
  unfold normalize_event. cbn [py_get]. unfold mbind, result_bind.
  destruct (normalize_each normalize_category _ _) eqn:Hc;
    [|intros [= <-]; eapply normalize_each_raises, Hc; apply normalize_category_raises].
  destruct (normalize_each normalize_source _ _) eqn:Hs;
    [|intros [= <-]; eapply normalize_each_raises, Hs; apply normalize_source_raises].
  destruct (normalize_each normalize_geometry _ _) eqn:Hg;
    [done|intros [= <-]; eapply normalize_each_raises, Hg; apply normalize_geometry_raises].
Qed.

Lemma normalize_events_shape_error utcnow payload e :
  normalize_events utcnow payload = Raise e -> is_shape_error e = true.
Proof.
  intros He. destruct payload as [| | | | | |d]; try by injection He as <-.
  unfold normalize_events in He. cbn [py_get] in He.
  unfold mbind, result_bind in He.
  destruct (py_iter _) as [items|e'] eqn:Hi;
    [|injection He as <-; by eapply py_iter_raises].
  destruct (mapM normalize_event items) as [normalized|e'] eqn:Hm; [done|].
  injection He as <-. apply mapM_raises in Hm as (x & _ & Hx).
  by eapply normalize_event_raises.
Qed.


End NormalizerFailures.

Section NormalizerKeys.
Context `{Runtime}.

(** An event is read through its ["id"] and the [.get] of seven more
    keys. *)
Lemma normalize_event_ext (d1 d2 : gmap string json) :
  d1 !! "id" = d2 !! "id" ->
  (forall key, key ∈ event_fields -> field d1 key = field d2 key) ->
  normalize_event (JDict d1) = normalize_event (JDict d2).
Proof.
  intros Hid Hfields.
  assert (forall key, key ∈ event_fields ->
            default JNull (d1 !! key) = default JNull (d2 !! key)) as Hf by done.
  unfold normalize_event, normalize_each. cbn [py_get]. unfold mbind, result_bind.
  rewrite Hid.
  rewrite (Hf "title"), (Hf "description"), (Hf "link"), (Hf "closed"),
    (Hf "categories"), (Hf "sources"), (Hf "geometry");
    [done|unfold event_fields; rewrite !elem_of_cons; tauto..].
Qed.

Lemma normalize_events_ext utcnow(d1 d2 : gmap string json) :
  default (JList []) (d1 !! "events") = default (JList []) (d2 !! "events") ->
  field d1 "title" = field d2 "title" ->
  normalize_events utcnow (JDict d1) = normalize_events utcnow (JDict d2).
Proof.
  intros Hev Ht. unfold normalize_events, field in *. cbn [py_get].
  unfold mbind, result_bind. by rewrite Hev, Ht.
Qed.

(** X12. Keys that the normalizer does not read have no influence: adding
    or changing one in an event (any key but the eight it reads) or in
    the payload (any key but ["events"] and ["title"]) leaves the result
    unchanged. *)
Theorem unknown_keys_ignored (utcnow : datetime) (d : gmap string json)
    (key : string) (v : json) :
  (key <> "id" -> key ∉ event_fields ->
     normalize_event (JDict (<[key := v]> d)) = normalize_event (JDict d))
  /\ (key ∉ payload_fields ->
     normalize_events utcnow (JDict (<[key := v]> d)) = normalize_events utcnow (JDict d)).
Proof.
  split.
  - intros Hid Hkey. apply normalize_event_ext.
    + by rewrite lookup_insert_ne.
    + intros k Hk. unfold field. rewrite lookup_insert_ne; [done|]. by intros ->.
  - unfold payload_fields. rewrite !not_elem_of_cons. intros (Hev & Ht & _).
    apply normalize_events_ext; unfold field; by rewrite lookup_insert_ne.
Qed.

(** X13. Except for an event's ["id"], a key bound to [null] is read like
    an absent key: in an event, and for both keys of the payload
    (["events": null] gives no events). *)
Theorem null_reads_as_absent (utcnow : datetime) (d : gmap string json) (key : string) :
  (key <> "id" ->
     normalize_event (JDict (<[key := JNull]> d)) = normalize_event (JDict (delete key d)))
  /\ normalize_events utcnow (JDict (<[key := JNull]> d)) =
       normalize_events utcnow (JDict (delete key d)).
Proof.
  split.
  - intros Hid. apply normalize_event_ext.
    + by rewrite lookup_insert_ne, lookup_delete_ne.
    + intros k _. unfold field. destruct (decide (key = k)) as [->|Hne].
      * by rewrite lookup_insert_eq, lookup_delete_eq.
      * by rewrite lookup_insert_ne, lookup_delete_ne.
  - destruct (decide (key = "events")) as [->|Hev];
      [|destruct (decide (key = "title")) as [->|Ht]].
    + unfold normalize_events. cbn [py_get]. unfold mbind, result_bind, field.
      rewrite lookup_insert_eq, lookup_delete_eq.
      by rewrite lookup_insert_ne, lookup_delete_ne.
    + apply normalize_events_ext; unfold field.
      * by rewrite lookup_insert_ne, lookup_delete_ne.
      * by rewrite lookup_insert_eq, lookup_delete_eq.
    + apply normalize_events_ext; unfold field;
        by rewrite lookup_insert_ne, lookup_delete_ne.
Qed.

End NormalizerKeys.

Section NormalizerLists.
Context `{Runtime}.

Lemma normalize_event_lists d ne :
  normalize_event (JDict d) = Ok ne ->
  normalize_each normalize_category (JDict d) "categories" = Ok (categories ne)
  /\ normalize_each normalize_source (JDict d) "sources" = Ok (sources ne)
  /\ normalize_each normalize_geometry (JDict d) "geometry" = Ok (geometry ne).
Proof.
  unfold normalize_event. cbn [py_get]. unfold mbind at 1 2 3 4 5 6 7 8, result_bind.
  destruct (normalize_each normalize_category _ _); [|done].
  destruct (normalize_each normalize_source _ _); [|done].
  destruct (normalize_each normalize_geometry _ _); [|done].
  by intros [= <-].
Qed.

Lemma normalize_each_list {A} (body : json -> result A) d key l :
  d !! key = Some (JList l) -> normalize_each body (JDict d) key = mapM body l.
Proof.
  intros Hl. unfold normalize_each. cbn [py_get]. rewrite Hl. cbn.
  unfold py_or. by destruct l.
Qed.

(** The [j]-th item of a list of sub-objects and its normalization. *)
Lemma normalize_each_lookup {A} (body : json -> result A) d key l out j x :
  d !! key = Some (JList l) ->
  normalize_each body (JDict d) key = Ok out ->
  l !! j = Some x ->
  length out = length l /\ exists y, out !! j = Some y /\ body x = Ok y.
Proof.
  intros Hl Hout Hj. rewrite (normalize_each_list _ _ _ _ Hl) in Hout.
  apply mapM_Ok in Hout. split; [symmetry; by eapply Forall2_length|].
  destruct (Forall2_lookup_l _ _ _ _ _ Hout Hj) as (y & Hy & Hb). eauto.
Qed.

Lemma asdict_lists ne :
  exists m, asdict ne = JDict m
    /\ m !! "categories" = Some (JList (asdict_category <$> categories ne))
    /\ m !! "sources" = Some (JList (asdict_source <$> sources ne))
    /\ m !! "geometry" = Some (JList (asdict_geometry <$> geometry ne)).
Proof. eexists. split; [reflexivity|]. split_and!; reflexivity. Qed.

Lemma asdict_geometry_lookup ng :
  exists m, asdict_geometry ng = JDict m
    /\ m !! "coordinates" = Some (coordinates ng)
    /\ m !! "type" = Some (type ng)
    /\ m !! "magnitude_value" = Some (magnitude_value ng)
    /\ m !! "magnitude_unit" = Some (magnitude_unit ng)
    /\ m !! "date" = Some (date ng).
Proof. eexists. split; [reflexivity|]. split_and!; reflexivity. Qed.

Lemma asdict_category_lookup nc :
  exists m, asdict_category nc = JDict m
    /\ m !! "id" = Some (JStr (cat_id nc)) /\ m !! "title" = Some (cat_title nc).
Proof. eexists. split; [reflexivity|]. split_and!; reflexivity. Qed.

Lemma asdict_source_lookup ns :
  exists m, asdict_source ns = JDict m
    /\ m !! "id" = Some (JStr (src_id ns)) /\ m !! "url" = Some (src_url ns).
Proof. eexists. split; [reflexivity|]. split_and!; reflexivity. Qed.

(** X14. Each geometry entry of a raw event comes out at the same
    position of the normalized event's ["geometry"], which has as many
    entries: [coordinates] and [type] are copied as they are, whatever
    they hold; [magnitudeValue] and [magnitudeUnit] are copied under
    [magnitude_value] and [magnitude_unit]; [date] goes through the
    timestamp rule. *)
Theorem geometry_passthrough (utcnow : datetime) (d ev g : gmap string json)
    (raw gs : list json) (i j : nat) (out : json) :
  d !! "events" = Some (JList raw) ->
  raw !! i = Some (JDict ev) ->
  ev !! "geometry" = Some (JList gs) ->
  gs !! j = Some (JDict g) ->
  normalize_events utcnow (JDict d) = Ok out ->
  exists (o m mg : gmap string json) (events geos : list json),
    out = JDict o /\ o !! "events" = Some (JList events)
    /\ events !! i = Some (JDict m)
    /\ m !! "geometry" = Some (JList geos)
    /\ length geos = length gs
    /\ geos !! j = Some (JDict mg)
    /\ mg !! "coordinates" = Some (field g "coordinates")
    /\ mg !! "type" = Some (field g "type")
    /\ mg !! "magnitude_value" = Some (field g "magnitudeValue")
    /\ mg !! "magnitude_unit" = Some (field g "magnitudeUnit")
    /\ mg !! "date" = Some (_try_parse_dt (field g "date")).
Proof.
  intros Hd Hi Hg Hj Hout.
  destruct (normalize_events_lookup _ _ _ _ _ _ Hd Hi Hout)
    as (o & events & ne & -> & Hev & Hne & Hok).
  apply normalize_event_lists in Hok as (_ & _ & Hgeo).
  destruct (normalize_each_lookup _ _ _ _ _ _ _ Hg Hgeo Hj) as (Hlen & ng & Hng & Hb).
  destruct (asdict_lists ne) as (m & Hm & _ & _ & Hmg).
  destruct (asdict_geometry_lookup ng) as (mg & Hmg' & Hco & Hty & Hmv & Hmu & Hda).
  injection Hb as <-. cbn in Hco, Hty, Hmv, Hmu, Hda.
  exists o, m, mg, events, (asdict_geometry <$> geometry ne).
  rewrite <- Hm, <- Hmg'. split_and!; try done.
  - by rewrite length_fmap.
  - by rewrite list_lookup_fmap, Hng.
Qed.


Lemma normalize_events_of_list utcnow (d : gmap string json) raw normalized :
  d !! "events" = Some (JList raw) ->
  mapM normalize_event raw = Ok normalized ->
  normalize_events utcnow (JDict d) =
    Ok (JDict {[ "source" := JStr "NASA_EONET_V3";
                 "title" := field d "title";
                 "generated_at" := JStr (isoformat utcnow +:+ "Z");
                 "count" := JInt (Z.of_nat (length normalized));
                 "events" := JList (asdict <$> normalized) ]}).
Proof.
  intros Hd Hmap. unfold normalize_events. cbn [py_get]. rewrite Hd.
  unfold mbind at 1, result_bind at 1. cbn [default id].
  replace (py_iter (py_or (JList raw) (JList []))) with (Ok raw : result (list json))
    by (unfold py_or; by destruct raw).
  unfold mbind at 1, result_bind at 1. rewrite Hmap. reflexivity.
Qed.

Lemma mapM_app {A B} (f : A -> result B) l1 l2 k1 k2 :
  mapM f l1 = Ok k1 -> mapM f l2 = Ok k2 -> mapM f (l1 ++ l2) = Ok (k1 ++ k2).
Proof.
  rewrite !mapM_Ok. apply Forall2_app.
Qed.

(** X16. Events are normalized one by one, independently of their
    neighbours: when two lists of raw events are each accepted, so is
    their concatenation, and its normalized events are the two results
    one after the other, with the two counts added. *)
Theorem normalize_events_concat (utcnow : datetime) (d o1 o2 : gmap string json)
    (raw1 raw2 events1 events2 : list json) :
  normalize_events utcnow (JDict (<["events" := JList raw1]> d)) = Ok (JDict o1) ->
  normalize_events utcnow (JDict (<["events" := JList raw2]> d)) = Ok (JDict o2) ->
  o1 !! "events" = Some (JList events1) ->
  o2 !! "events" = Some (JList events2) ->
  exists o : gmap string json,
    normalize_events utcnow (JDict (<["events" := JList (raw1 ++ raw2)]> d)) = Ok (JDict o)
    /\ o !! "events" = Some (JList (events1 ++ events2))
    /\ o !! "count" = Some (JInt (Z.of_nat (length events1 + length events2))).
Proof.
  intros H1 H2 He1 He2.
  apply normalize_events_inv in H1
    as (d1 & r1 & n1 & o1' & [= <-] & Hr1 & Hn1 & [= <-] & Hev1 & _).
  apply normalize_events_inv in H2
    as (d2 & r2 & n2 & o2' & [= <-] & Hr2 & Hn2 & [= <-] & Hev2 & _).
  rewrite lookup_insert_eq in Hr1, Hr2.
  assert (r1 = raw1) as ->.
  { destruct Hr1 as [[= ->]|[Hf ->]]; [done|]. by destruct raw1. }
  assert (r2 = raw2) as ->.
  { destruct Hr2 as [[= ->]|[Hf ->]]; [done|]. by destruct raw2. }
  rewrite He1 in Hev1. rewrite He2 in Hev2.
  injection Hev1 as ->. injection Hev2 as ->.
  apply mapM_Ok in Hn1, Hn2.
  rewrite (normalize_events_of_list utcnow _ (raw1 ++ raw2) (n1 ++ n2));
    [|apply lookup_insert_eq|by apply mapM_app].
  eexists. split; [reflexivity|]. split.
  - by rewrite fmap_app.
  - by rewrite length_app, !length_fmap.
Qed.

End NormalizerLists.

(** * Properties of the views *)

Section Views.
Context `{Runtime} `{TextRuntime}.

Lemma get_first_response_returned c path params w r j :
  1 <= retries c ->
  session c (gets w) (request_of c path params) = Responded r ->
  passes (status_code r) = true ->
  body_json r = Some j ->
  _get c path params w = (Ok j, w ++ [EvGet (request_of c path params)]).
Proof.
  intros Hn Hs Hp Hj. unfold _get, py_range. rewrite seqZ_cons by lia.
  by eapply for_attempts_return.
Qed.

Lemma get_first_response_rejected c path params w r :
  1 <= retries c ->
  session c (gets w) (request_of c path params) = Responded r ->
  400 <= status_code r < 500 ->
  status_code r <> 429 ->
  exists cause,
    _get c path params w =
      (Raise (EONETClientError
                ("EONET request failed (" +:+ str_int (status_code r) +:+ ") at "
                   +:+ url_of c path) (Some cause)),
       w ++ [EvGet (request_of c path params)]).
Proof.
  intros Hn Hs Hr Hne. unfold _get, py_range. rewrite seqZ_cons by lia.
  eexists. by apply for_attempts_abort.
Qed.

(** X17. What [GET /raw/events] can do: answer 200 with the JSON the
    client returned, unchanged; answer 502 with the error envelope whose
    message is that of the [EONETClientError] the client raised; or raise
    an exception that is not an [EONETClientError]. It answers with no
    other status, and the client's effects are its only effects. *)
Theorem raw_events_outcomes (c : EONETClient) (args : Routes.Args) (w w' : world)
    (res : result Routes.HttpResponse) :
  Routes.raw_events c args w = (res, w') ->
  (exists q j,
     Routes._get_query_params args = Ok q
     /\ get_events c (Routes.qp_category q) (Routes.qp_source q) (Routes.qp_status q)
          (Routes.qp_days q) (Routes.qp_limit q) w = (Ok j, w')
     /\ res = Ok {| Routes.body := j; Routes.http_status := 200 |})
  \/ (exists q msg cause,
     Routes._get_query_params args = Ok q
     /\ get_events c (Routes.qp_category q) (Routes.qp_source q) (Routes.qp_status q)
          (Routes.qp_days q) (Routes.qp_limit q) w
          = (Raise (EONETClientError msg cause), w')
     /\ res = Ok (error_envelope msg))
  \/ (exists e, res = Raise e /\ is_client_error e = false).
Proof.
  unfold Routes.raw_events, Routes.lift, mbind at 1, M_bind at 1.
  destruct (Routes._get_query_params args) as [q|e] eqn:Hq.
  - unfold try_except, mbind, M_bind.
    destruct (get_events c _ _ _ _ _ w) as [[j|e] w1] eqn:Hg.
    + intros [= <- <-]. left. by exists q, j.
    + destruct (is_client_error e) eqn:He.
      * destruct e; try done. intros [= <- <-]. right; left. by eexists q, _, _.
      * intros [= <- <-]. right; right. by exists e.
  - intros [= <- <-]. right; right. exists e. split; [done|].
    unfold Routes._get_query_params, Routes.int_arg, Routes.int_of_digits in Hq.
    unfold mbind, result_bind, fmap, result_fmap in Hq.
    repeat case_match; by simplify_eq.
Qed.

(** X18. When the upstream answers the first request with a status in
    400-499 other than 429, each pass-through view answers 502 with the
    error envelope, whose message names the status and the URL; one
    request was sent and nothing else happened. *)
Theorem views_answer_502 (c : EONETClient) (args : Routes.Args) (q : Routes.QueryParams)
    (w : world) (r : Response) :
  1 <= retries c ->
  (forall req, session c (gets w) req = Responded r) ->
  400 <= status_code r < 500 ->
  status_code r <> 429 ->
  Routes._get_query_params args = Ok q ->
  (exists p, Routes.raw_events c args w =
     (Ok (error_envelope ("EONET request failed (" +:+ str_int (status_code r)
                            +:+ ") at " +:+ url_of c "/events")),
      w ++ [EvGet (request_of c "/events" (Some p))]))
  /\ Routes.categories c w =
       (Ok (error_envelope ("EONET request failed (" +:+ str_int (status_code r)
                              +:+ ") at " +:+ url_of c "/categories")),
        w ++ [EvGet (request_of c "/categories" None)])
  /\ Routes.sources c w =
       (Ok (error_envelope ("EONET request failed (" +:+ str_int (status_code r)
                              +:+ ") at " +:+ url_of c "/sources")),
        w ++ [EvGet (request_of c "/sources" None)]).
Proof.
  intros Hn Hs Hr Hne Hq. split_and!.
  - unfold Routes.raw_events, Routes.lift, mbind at 1, M_bind at 1. rewrite Hq.
    unfold try_except, mbind, M_bind. rewrite get_events_params.
    edestruct get_first_response_rejected as [cause ->]; [done..|]. by eexists.
  - unfold Routes.categories, try_except, mbind, M_bind, get_categories.
    by edestruct get_first_response_rejected as [cause ->].
  - unfold Routes.sources, try_except, mbind, M_bind, get_sources.
    by edestruct get_first_response_rejected as [cause ->].
Qed.

(** X19. When the upstream answers the first request with a passing
    status and a JSON body, each pass-through view answers 200 with that
    JSON unchanged, after one request. *)
Theorem views_pass_json_through (c : EONETClient) (args : Routes.Args)
    (q : Routes.QueryParams) (w : world) (r : Response) (j : json) :
  1 <= retries c ->
  (forall req, session c (gets w) req = Responded r) ->
  passes (status_code r) = true ->
  body_json r = Some j ->
  Routes._get_query_params args = Ok q ->
  (exists p, Routes.raw_events c args w =
     (Ok {| Routes.body := j; Routes.http_status := 200 |},
      w ++ [EvGet (request_of c "/events" (Some p))]))
  /\ Routes.categories c w =
       (Ok {| Routes.body := j; Routes.http_status := 200 |},
        w ++ [EvGet (request_of c "/categories" None)])
  /\ Routes.sources c w =
       (Ok {| Routes.body := j; Routes.http_status := 200 |},
        w ++ [EvGet (request_of c "/sources" None)]).
Proof.
  intros Hn Hs Hp Hj Hq. split_and!.
  - unfold Routes.raw_events, Routes.lift, mbind at 1, M_bind at 1. rewrite Hq.
    unfold try_except, mbind, M_bind. rewrite get_events_params.
    erewrite get_first_response_returned by done. by eexists.
  - unfold Routes.categories, try_except, mbind, M_bind, get_categories.
    by erewrite get_first_response_returned.
  - unfold Routes.sources, try_except, mbind, M_bind, get_sources.
    by erewrite get_first_response_returned.
Qed.


End Views.

Section QueryParams.
Context `{TextRuntime}.

Lemma digits_are_ascii l :
  forallb Routes.decimal_digit l = true ->
  forallb (fun a => (nat_of_ascii a <? 128)%nat) l = true.
Proof.
  induction l as [|a l IH]; [done|]. cbn [forallb].
  intros [Ha Hl]%andb_true_iff. rewrite IH by done.
  unfold Routes.decimal_digit in Ha. apply andb_true_iff in Ha as [_ Ha].
  apply Nat.leb_le in Ha. rewrite andb_true_r. apply Nat.ltb_lt. lia.
Qed.

Lemma all_digits_ascii s : all_digits s = true -> Routes.is_ascii s = true.
Proof. intros [_ Hd]%andb_true_iff. by apply digits_are_ascii. Qed.

Lemma isdigit_ascii s : Routes.is_ascii s = true -> Routes.isdigit s = all_digits s.
Proof. intros Ha. unfold Routes.isdigit. by rewrite Ha. Qed.

Lemma decimal_value_nonneg s acc :
  0 <= acc ->
  forallb Routes.decimal_digit (list_ascii_of_string s) = true ->
  0 <= Routes.decimal_value acc s.
Proof.
  revert acc. induction s as [|a s IH]; intros acc Hacc; [done|].
  cbn [list_ascii_of_string forallb Routes.decimal_value].
  intros [Ha Hs]%andb_true_iff. apply IH; [|done].
  unfold Routes.decimal_digit in Ha. apply andb_true_iff in Ha as [Ha _].
  apply Nat.leb_le in Ha. lia.
Qed.

(** What the views read from one numeric parameter whose text is plain. *)
Lemma int_arg_plain (args : Routes.Args) key :
  (forall v, args !! key = Some v -> Routes.is_plain v = true) ->
  Routes.int_arg args key =
    Ok (match args !! key with
        | Some v => if all_digits v then Some (Routes.decimal_value 0 v) else None
        | None => None
        end).
Proof.
  intros Hplain. unfold Routes.int_arg. destruct (args !! key) as [v|]; [|done].
  specialize (Hplain v eq_refl).
  assert (Routes.is_ascii v = true) as Ha.
  { unfold Routes.is_plain in Hplain. by apply andb_true_iff in Hplain as [? _]. }
  rewrite isdigit_ascii by done.
  destruct (all_digits v) eqn:Hd; [|by rewrite andb_false_r].
  apply andb_true_iff in Hd as [-> _]. cbn [andb].
  unfold Routes.int_of_digits. by rewrite Hplain.
Qed.

(** X21. On a query string whose [days] and [limit] are plain text,
    [_get_query_params] does not raise. The three text filters are the
    parameters as given, an empty one counting as absent. [days] and
    [limit] are read exactly when the text is a non-empty string of
    decimal digits, as the number it writes, which is never negative; any
    other text (a sign, a space, a letter, a decimal point) is dropped
    without an error. *)
Theorem query_params_plain (args : Routes.Args) :
  (forall v, args !! "days" = Some v -> Routes.is_plain v = true) ->
  (forall v, args !! "limit" = Some v -> Routes.is_plain v = true) ->
  exists q,
    Routes._get_query_params args = Ok q
    /\ Routes.qp_category q = given (args !! "category")
    /\ Routes.qp_source q = given (args !! "source")
    /\ Routes.qp_status q = given (args !! "status")
    /\ (forall n, Routes.qp_days q = Some n <->
          exists v, args !! "days" = Some v /\ all_digits v = true
                    /\ n = Routes.decimal_value 0 v)
    /\ (forall n, Routes.qp_limit q = Some n <->
          exists v, args !! "limit" = Some v /\ all_digits v = true
                    /\ n = Routes.decimal_value 0 v)
    /\ (forall n, Routes.qp_days q = Some n \/ Routes.qp_limit q = Some n -> 0 <= n).
Proof.
  intros Hdays Hlimit. unfold Routes._get_query_params.
  rewrite (int_arg_plain _ _ Hdays), (int_arg_plain _ _ Hlimit). cbn.
  eexists. split; [reflexivity|]. cbn.
  assert (forall key n,
    match args !! key with
    | Some v => if all_digits v then Some (Routes.decimal_value 0 v) else None
    | None => None
    end = Some n <->
    exists v, args !! key = Some v /\ all_digits v = true
              /\ n = Routes.decimal_value 0 v) as Hread.
  { intros key n. destruct (args !! key) as [v|];
      [|split; [done|by intros (v & Hv & _)]].
    destruct (all_digits v) eqn:Hd; split.
    - intros [= <-]. by exists v.
    - by intros (v' & [= <-] & _ & ->).
    - done.
    - intros (v' & [= <-] & Hd' & _). congruence. }
  split_and!; [done..|apply Hread|apply Hread|].
  intros n [Hn|Hn]; apply Hread in Hn as (v & _ & [_ Hd]%andb_true_iff & ->);
    by apply decimal_value_nonneg.
Qed.

End QueryParams.

Section DecimalRoundTrip.
Context `{TextRuntime}.

Lemma pretty_N_char_digit (y : N) :
  (y < 10)%N ->
  Routes.decimal_digit (pretty_N_char y) = true
  /\ Z.of_nat (nat_of_ascii (pretty_N_char y)) - 48 = Z.of_N y.
Proof.
  intros Hy.
  assert (y = 0 \/ y = 1 \/ y = 2 \/ y = 3 \/ y = 4 \/ y = 5 \/ y = 6 \/ y = 7
          \/ y = 8 \/ y = 9)%N as Hcases by lia.
  repeat (destruct Hcases as [->|Hcases]; [by vm_compute|]). subst. by vm_compute.
Qed.

Lemma pretty_N_go_digits (x : N) :
  forall s,
    forallb Routes.decimal_digit (list_ascii_of_string s) = true ->
    forallb Routes.decimal_digit (list_ascii_of_string (pretty_N_go x s)) = true.
Proof.
  induction (N.lt_wf_0 x) as [x _ IH]. intros s Hs.
  destruct (decide (x = 0)%N) as [->|Hx]; [by rewrite pretty_N_go_0|].
  rewrite pretty_N_go_step by lia. apply IH; [apply N.div_lt; lia|].
  cbn [list_ascii_of_string forallb]. rewrite Hs, andb_true_r.
  apply pretty_N_char_digit, N.mod_lt. lia.
Qed.

Lemma pretty_N_go_value (x : N) :
  forall s, Routes.decimal_value 0 (pretty_N_go x s) = Routes.decimal_value (Z.of_N x) s.
Proof.
  induction (N.lt_wf_0 x) as [x _ IH]. intros s.
  destruct (decide (x = 0)%N) as [->|Hx]; [by rewrite pretty_N_go_0|].
  rewrite pretty_N_go_step by lia. rewrite IH by (apply N.div_lt; lia).
  cbn [Routes.decimal_value]. f_equal.
  destruct (pretty_N_char_digit (x `mod` 10)) as [_ ->]; [apply N.mod_lt; lia|].
  rewrite N2Z.inj_div, N2Z.inj_mod. change (Z.of_N 10) with 10.
  pose proof (Z.div_mod (Z.of_N x) 10). lia.
Qed.

Lemma pretty_N_go_nonempty (x : N) : forall s, s <> "" -> pretty_N_go x s <> "".
Proof.
  induction (N.lt_wf_0 x) as [x _ IH]. intros s Hs.
  destruct (decide (x = 0)%N) as [->|Hx]; [by rewrite pretty_N_go_0|].
  rewrite pretty_N_go_step by lia. apply IH; [apply N.div_lt; lia|done].
Qed.

(** [str] of a non-negative [int] is a string of digits that writes it. *)
Lemma str_int_digits (n : Z) :
  0 <= n -> all_digits (str_int n) = true /\ Routes.decimal_value 0 (str_int n) = n.
Proof.
  intros Hn. destruct n as [|p|p]; [done| |lia].
  unfold str_int, pretty, pretty_Z, pretty, pretty_positive, pretty, pretty_N.
  rewrite decide_False by done. split.
  - unfold all_digits. apply andb_true_iff. split.
    + apply negb_true_iff, bool_decide_eq_false.
      rewrite pretty_N_go_step by lia. by apply pretty_N_go_nonempty.
    + by apply pretty_N_go_digits.
  - by rewrite pretty_N_go_value.
Qed.

(** X22. The numeric parameters round-trip: when [days] and [limit]
    carry the decimal writing ([str]) of two non-negative integers, of at
    most 640 characters, [_get_query_params] reads those integers back. *)
Theorem query_numbers_round_trip (args : Routes.Args) (days limit : Z) :
  0 <= days -> 0 <= limit ->
  (String.length (str_int days) <= 640)%nat ->
  (String.length (str_int limit) <= 640)%nat ->
  args !! "days" = Some (str_int days) ->
  args !! "limit" = Some (str_int limit) ->
  exists q,
    Routes._get_query_params args = Ok q
    /\ Routes.qp_days q = Some days /\ Routes.qp_limit q = Some limit.
Proof.
  intros Hd Hl Hdlen Hllen Hdays Hlimit.
  destruct (str_int_digits days Hd) as [Hdd Hdv].
  destruct (str_int_digits limit Hl) as [Hld Hlv].
  assert (forall n, all_digits (str_int n) = true ->
            (String.length (str_int n) <= 640)%nat ->
            Routes.is_plain (str_int n) = true) as Hplain.
  { intros n Hdigits Hlen. unfold Routes.is_plain.
    rewrite all_digits_ascii by done. by apply Nat.leb_le. }
  unfold Routes._get_query_params.
  rewrite (int_arg_plain args "days"), (int_arg_plain args "limit").
  - rewrite Hdays, Hlimit, Hdd, Hld, Hdv, Hlv. by eexists.
  - intros v. rewrite Hlimit. intros [= <-]. by apply Hplain.
  - intros v. rewrite Hdays. intros [= <-]. by apply Hplain.
Qed.

End DecimalRoundTrip.

(** * More closed examples *)

Example storm_normalized :
  @normalize_events RefRuntime.runtime sample_now (JDict storm_payload) = Ok storm_output.
Proof. vm_compute. reflexivity. Qed.

Example sample_query_read :
  @Routes._get_query_params ascii_text sample_args = Ok sample_query.
Proof. vm_compute. reflexivity. Qed.

Lemma always_answers o n req : session (client_of 3 (7 # 10) (always o)) n req = o.
Proof. cbn. unfold always, scripted. by destruct n. Qed.

Lemma get_exhausts_any_budget_witness :
  _get unavailable_client "/events" None [] =
    (Raise (EONETClientError
              ("EONET request failed after retries at "
                 +:+ url_of unavailable_client "/events") (Some unavailable)),
     [] ++ attempts_trace (request_of unavailable_client "/events" None) (7 # 10) 1 2)
  /\ gets (_get unavailable_client "/events" None []).2 = (gets [] + 2)%nat
  /\ sleeps (_get unavailable_client "/events" None []).2 =
       sleeps [] ++ ((fun i => ((7 # 10) * inject_Z i)%Q) <$> seqZ 1 (Z.of_nat 1)).
Proof.
  apply (get_exhausts_any_budget unavailable_client "/events" None [] 1
           (fun _ => unavailable)).
  - reflexivity.
  - unfold Qle. simpl. lia.
  - intros i _. cbn. unfold scripted. by destruct i.
Defined.

Lemma get_returns_first_success_witness :
  _get flaky_client "/events" None [] =
    (Ok (JDict {[ "title" := JStr "T" ]}),
     [] ++ attempts_trace (request_of flaky_client "/events" None) (7 # 10) 1 3)
  /\ sleeps (_get flaky_client "/events" None []).2 =
       sleeps [] ++ ((fun i => ((7 # 10) * inject_Z i)%Q) <$> seqZ 1 (Z.of_nat 2)).
Proof.
  apply (get_returns_first_success flaky_client "/events" None [] 2
           (fun _ => server_error)
           (response 200 (Some (JDict {[ "title" := JStr "T" ]})))).
  - reflexivity.
  - unfold Qle. simpl. lia.
  - intros i Hi. destruct i as [|[|i]]; [reflexivity..|lia].
  - reflexivity.
  - reflexivity.
  - reflexivity.
Defined.

Lemma get_aborts_on_client_error_witness :
  (exists cause,
     _get gone_client "/events" None [] =
       (Raise (EONETClientError
                 ("EONET request failed (" +:+ str_int 404 +:+ ") at "
                    +:+ url_of gone_client "/events")
                 (Some (HTTPError cause (Some (response 404 None))))),
        [] ++ attempts_trace (request_of gone_client "/events" None) (7 # 10) 1 2))
  /\ gets (_get gone_client "/events" None []).2 = (gets [] + 2)%nat.
Proof.
  apply (get_aborts_on_client_error gone_client "/events" None [] 1
           (fun _ => server_error) (response 404 None)).
  - reflexivity.
  - unfold Qle. simpl. lia.
  - intros i Hi. destruct i as [|i]; [reflexivity|lia].
  - reflexivity.
  - simpl. lia.
  - simpl. lia.
Defined.

Lemma get_without_budget_witness :
  _get no_budget_client "/events" None [] =
    (Raise (EONETClientError
              ("EONET request failed unexpectedly at " +:+ url_of no_budget_client "/events")
              None), []).
Proof. apply (get_without_budget no_budget_client "/events" None []). simpl. lia. Defined.


Lemma normalized_output_schema_witness : response_schema storm_output.
Proof.
  apply (@normalized_output_schema RefRuntime.runtime sample_now (JDict storm_payload)).
  vm_compute. reflexivity.
Defined.

Lemma no_events_normalized_witness :
  @normalize_events RefRuntime.runtime sample_now (JDict {[ "events" := JNull ]}) =
    Ok (JDict {[ "source" := JStr "NASA_EONET_V3";
                 "title" := field {[ "events" := JNull ]} "title";
                 "generated_at" := JStr (@isoformat RefRuntime.runtime sample_now +:+ "Z");
                 "count" := JInt 0;
                 "events" := JList [] ]}).
Proof.
  apply (@no_events_normalized RefRuntime.runtime sample_now {[ "events" := JNull ]}).
  reflexivity.
Defined.


Lemma geometry_passthrough_witness :
  exists (o m mg : gmap string json) (events geos : list json),
    storm_output = JDict o /\ o !! "events" = Some (JList events)
    /\ events !! 0%nat = Some (JDict m)
    /\ m !! "geometry" = Some (JList geos)
    /\ length geos = length [JDict storm_geometry]
    /\ geos !! 0%nat = Some (JDict mg)
    /\ mg !! "coordinates" = Some (field storm_geometry "coordinates")
    /\ mg !! "type" = Some (field storm_geometry "type")
    /\ mg !! "magnitude_value" = Some (field storm_geometry "magnitudeValue")
    /\ mg !! "magnitude_unit" = Some (field storm_geometry "magnitudeUnit")
    /\ mg !! "date" =
         Some (@_try_parse_dt RefRuntime.runtime (field storm_geometry "date")).
Proof.
  apply (@geometry_passthrough RefRuntime.runtime sample_now storm_payload storm_event
           storm_geometry [JDict storm_event] [JDict storm_geometry] 0 0).
  - reflexivity.
  - reflexivity.
  - reflexivity.
  - reflexivity.
  - vm_compute. reflexivity.
Defined.


Lemma raw_events_outcomes_witness :
  (exists q j,
     @Routes._get_query_params ascii_text sample_args = Ok q
     /\ get_events not_found_client (Routes.qp_category q) (Routes.qp_source q)
          (Routes.qp_status q) (Routes.qp_days q) (Routes.qp_limit q) []
          = (Ok j, [EvGet (request_of not_found_client "/events" (Some sample_params))])
     /\ Ok (error_envelope
              "EONET request failed (404) at https://eonet.gsfc.nasa.gov/api/v3/events")
          = Ok {| Routes.body := j; Routes.http_status := 200 |})
  \/ (exists q msg cause,
     @Routes._get_query_params ascii_text sample_args = Ok q
     /\ get_events not_found_client (Routes.qp_category q) (Routes.qp_source q)
          (Routes.qp_status q) (Routes.qp_days q) (Routes.qp_limit q) []
          = (Raise (EONETClientError msg cause),
             [EvGet (request_of not_found_client "/events" (Some sample_params))])
     /\ Ok (error_envelope
              "EONET request failed (404) at https://eonet.gsfc.nasa.gov/api/v3/events")
          = Ok (error_envelope msg))
  \/ (exists e,
     Ok (error_envelope
           "EONET request failed (404) at https://eonet.gsfc.nasa.gov/api/v3/events")
       = Raise e /\ is_client_error e = false).
Proof.
  apply (@raw_events_outcomes ascii_text not_found_client sample_args []).
  vm_compute. reflexivity.
Defined.

Lemma views_answer_502_witness :
  (exists p, @Routes.raw_events ascii_text not_found_client sample_args [] =
     (Ok (error_envelope ("EONET request failed (" +:+ str_int 404
                            +:+ ") at " +:+ url_of not_found_client "/events")),
      [] ++ [EvGet (request_of not_found_client "/events" (Some p))]))
  /\ Routes.categories not_found_client [] =
       (Ok (error_envelope ("EONET request failed (" +:+ str_int 404
                              +:+ ") at " +:+ url_of not_found_client "/categories")),
        [] ++ [EvGet (request_of not_found_client "/categories" None)])
  /\ Routes.sources not_found_client [] =
       (Ok (error_envelope ("EONET request failed (" +:+ str_int 404
                              +:+ ") at " +:+ url_of not_found_client "/sources")),
        [] ++ [EvGet (request_of not_found_client "/sources" None)]).
Proof.
  apply (@views_answer_502 ascii_text not_found_client sample_args sample_query []
           (response 404 None)).
  - simpl. lia.
  - intros req. apply always_answers.
  - simpl. lia.
  - simpl. lia.
  - vm_compute. reflexivity.
Defined.

Lemma views_pass_json_through_witness :
  (exists p, @Routes.raw_events ascii_text events_client sample_args [] =
     (Ok {| Routes.body := sample_payload; Routes.http_status := 200 |},
      [] ++ [EvGet (request_of events_client "/events" (Some p))]))
  /\ Routes.categories events_client [] =
       (Ok {| Routes.body := sample_payload; Routes.http_status := 200 |},
        [] ++ [EvGet (request_of events_client "/categories" None)])
  /\ Routes.sources events_client [] =
       (Ok {| Routes.body := sample_payload; Routes.http_status := 200 |},
        [] ++ [EvGet (request_of events_client "/sources" None)]).
Proof.
  apply (@views_pass_json_through ascii_text events_client sample_args sample_query []
           (response 200 (Some sample_payload))).
  - simpl. lia.
  - intros req. apply always_answers.
  - reflexivity.
  - reflexivity.
  - vm_compute. reflexivity.
Defined.


Lemma sample_args_plain key v :
  sample_args !! key = Some v -> Routes.is_plain v = true.
Proof.
  unfold sample_args. intros Hv.
  repeat (apply lookup_insert_Some in Hv as [[_ <-]|[_ Hv]]; [reflexivity|]).
  by apply lookup_singleton_Some in Hv as [_ <-].
Qed.

Lemma query_params_plain_witness :
  exists q,
    @Routes._get_query_params ascii_text sample_args = Ok q
    /\ Routes.qp_category q = given (sample_args !! "category")
    /\ Routes.qp_source q = given (sample_args !! "source")
    /\ Routes.qp_status q = given (sample_args !! "status")
    /\ (forall n, Routes.qp_days q = Some n <->
          exists v, sample_args !! "days" = Some v /\ all_digits v = true
                    /\ n = Routes.decimal_value 0 v)
    /\ (forall n, Routes.qp_limit q = Some n <->
          exists v, sample_args !! "limit" = Some v /\ all_digits v = true
                    /\ n = Routes.decimal_value 0 v)
    /\ (forall n, Routes.qp_days q = Some n \/ Routes.qp_limit q = Some n -> 0 <= n).
Proof.
  apply (@query_params_plain ascii_text sample_args); intros v; apply sample_args_plain.
Defined.

Lemma query_numbers_round_trip_witness :
  exists q,
    @Routes._get_query_params ascii_text {[ "days" := str_int 30; "limit" := str_int 0 ]}
      = Ok q
    /\ Routes.qp_days q = Some 30 /\ Routes.qp_limit q = Some 0.
Proof.
  apply (@query_numbers_round_trip ascii_text
           {[ "days" := str_int 30; "limit" := str_int 0 ]} 30 0).
  - lia.
  - lia.
  - vm_compute. lia.
  - vm_compute. lia.
  - reflexivity.
  - reflexivity.
Defined.

Lemma get_returns_passing_json_witness :
  exists (w0 : world) (r : Response),
    [EvGet (request_of events_client "/events" None)] =
      w0 ++ [EvGet (request_of events_client "/events" None)]
    /\ session events_client (gets w0) (request_of events_client "/events" None)
         = Responded r
    /\ passes (status_code r) = true /\ body_json r = Some sample_payload.
Proof.
  apply (get_returns_passing_json events_client "/events" None []).
  vm_compute. reflexivity.
Defined.

Lemma normalize_events_concat_witness :
  exists o : gmap string json,
    @normalize_events RefRuntime.runtime sample_now
      (JDict (<["events" := JList ([JDict storm_event] ++ odd_events)]> ∅)) = Ok (JDict o)
    /\ o !! "events" =
         Some (JList ([JDict {[ "id" := JStr "EONET_7"; "title" := JStr "Storm";
                                "description" := JNull; "link" := JNull;
                                "status" := JStr "open"; "closed" := JNull;
                                "categories" := JList [
                                  JDict {[ "id" := JStr "10";
                                           "title" := JStr "Severe Storms" ]} ];
                                "sources" := JList [
                                  JDict {[ "id" := JStr "JTWC";
                                           "url" := JStr "https://www.metoc.navy.mil/jtwc/" ]} ];
                                "geometry" := JList [
                                  JDict {[ "date" := JStr "2024-08-01T12:00:00+00:00";
                                           "type" := JStr "Point";
                                           "coordinates" :=
                                             JList [JFloat (-605 # 10); JFloat (253 # 10)];
                                           "magnitude_value" := JFloat 45;
                                           "magnitude_unit" := JStr "kts" ]} ] ]}]
                      ++ [JDict {[ "id" := JStr "None"; "title" := JNull;
                                   "description" := JNull; "link" := JNull;
                                   "status" := JStr "open"; "closed" := JNull;
                                   "categories" := JList []; "sources" := JList [];
                                   "geometry" := JList [] ]};
                          JDict {[ "id" := JStr "EONET_2"; "title" := JNull;
                                   "description" := JNull; "link" := JNull;
                                   "status" := JStr "closed"; "closed" := JInt 20240101;
                                   "categories" := JList []; "sources" := JList [];
                                   "geometry" := JList [] ]}]))
    /\ o !! "count" = Some (JInt (Z.of_nat (1 + 2))).
Proof.
  eapply (@normalize_events_concat RefRuntime.runtime sample_now ∅ _ _
            [JDict storm_event] odd_events).
  - vm_compute. reflexivity.
  - vm_compute. reflexivity.
  - vm_compute. reflexivity.
  - vm_compute. reflexivity.
Defined.
